(** * Interrupted time series pipeline of [analysis/its.py]

    A shallow embedding of the model-building, inference-extraction and
    counterfactual code of [analysis/its.py], followed by the properties
    of that code that the specification states.

    Conventions of the embedding:
    - a pandas DataFrame is a list of rows, a row is a record of the
      columns the measures file has; a column operation is a map over
      the rows;
    - a Python exception is a value of [exn], a function that can raise
      returns a [result];
    - float64 values that the code only stores, compares or scales are
      exact rationals ([Q]); NaN is the separate cell [CNaN];
    - statsmodels, patsy and the text rendering of floats are outside
      the repository: they are parameters of the sections that use
      them. *)

From Stdlib Require Import ZArith QArith List Bool Ascii String Lia.
Import ListNotations.

Open Scope string_scope.
Open Scope list_scope.
Open Scope Z_scope.

(** ** Exceptions *)

Inductive exn : Type :=
| ValueError (msg : string)
| IndexError (msg : string)
| KeyError (col : string)
| AttributeError (attr : string)
| NameError (msg : string)
| ConvergenceWarning (msg : string).

Inductive result (A : Type) : Type :=
| Ok (a : A)
| Raise (e : exn).
Arguments Ok {A} a.
Arguments Raise {A} e.

Definition bind {A B : Type} (r : result A) (k : A -> result B) : result B :=
  match r with
  | Ok a => k a
  | Raise e => Raise e
  end.

Notation "x <- r ;; k" := (bind r (fun x => k))
  (at level 61, r at next level, right associativity).

Fixpoint mapM {A B : Type} (f : A -> result B) (l : list A) : result (list B) :=
  match l with
  | [] => Ok []
  | a :: l' => b <- f a ;; bs <- mapM f l' ;; Ok (b :: bs)
  end.

Definition is_ok {A : Type} (r : result A) : bool :=
  match r with Ok _ => true | Raise _ => false end.

(** ** Python string operations used by the code *)

Module PyStr.

(** [c in s] for a one-character [c]. *)
Fixpoint contains_char (c : ascii) (s : string) : bool :=
  match s with
  | EmptyString => false
  | String a s' => Ascii.eqb a c || contains_char c s'
  end.

Fixpoint count_char (c : ascii) (s : string) : nat :=
  match s with
  | EmptyString => O
  | String a s' => if Ascii.eqb a c then S (count_char c s') else count_char c s'
  end.

(** [s.split(c)] for a one-character separator: never the empty list. *)
Fixpoint split (c : ascii) (s : string) : list string :=
  match s with
  | EmptyString => [EmptyString]
  | String a s' =>
      if Ascii.eqb a c then EmptyString :: split c s'
      else match split c s' with
           | h :: t => String a h :: t
           | [] => [String a EmptyString]
           end
  end.

(** [s.rstrip(c)]: every trailing [c] is removed. *)
Fixpoint rstrip (c : ascii) (s : string) : string :=
  match s with
  | EmptyString => EmptyString
  | String a s' =>
      match rstrip c s' with
      | EmptyString => if Ascii.eqb a c then EmptyString else String a EmptyString
      | r => String a r
      end
  end.

Fixpoint lstrip (c : ascii) (s : string) : string :=
  match s with
  | EmptyString => EmptyString
  | String a s' => if Ascii.eqb a c then lstrip c s' else s
  end.

(** [sep.join(l)]. *)
Fixpoint join (sep : string) (l : list string) : string :=
  match l with
  | [] => EmptyString
  | [x] => x
  | x :: l' => x ++ sep ++ join sep l'
  end.

Fixpoint starts_with (p s : string) : bool :=
  match p, s with
  | EmptyString, _ => true
  | String a p', String b s' => Ascii.eqb a b && starts_with p' s'
  | String _ _, EmptyString => false
  end.

Fixpoint drop (n : nat) (s : string) : string :=
  match n, s with
  | O, _ => s
  | S n', String _ s' => drop n' s'
  | S _, EmptyString => EmptyString
  end.

(** [s.replace(old, new)] for a non-empty [old]: leftmost occurrences,
    not overlapping.  [fuel] bounds the scan; [String.length s] is
    enough. *)
Fixpoint replace_fuel (fuel : nat) (old new s : string) : string :=
  match fuel with
  | O => s
  | S fuel' =>
      match s with
      | EmptyString => EmptyString
      | String a s' =>
          if starts_with old s
          then new ++ replace_fuel fuel' old new (drop (String.length old) s)
          else String a (replace_fuel fuel' old new s')
      end
  end.

Definition replace (old new s : string) : string :=
  replace_fuel (String.length s) old new s.

(** [re.search("T.", s)]: a ['T'] followed by one more character that is
    not a line feed (the dot of a regular expression is any character
    but the newline). *)
Fixpoint search_T_any (s : string) : bool :=
  match s with
  | EmptyString => false
  | String a s' =>
      (Ascii.eqb a "T"
       && match s' with
          | String b _ => negb (Ascii.eqb b "010")
          | EmptyString => false
          end)
      || search_T_any s'
  end.

End PyStr.

(** ** The measures table *)

(** A [pandas.Timestamp] at midnight, as [read_csv(parse_dates=["date"])]
    gives. *)
Record Timestamp : Type := { year : Z; month : Z; day : Z }.

Definition ts_eqb (a b : Timestamp) : bool :=
  (year a =? year b) && (month a =? month b) && (day a =? day b).

Definition ts_ltb (a b : Timestamp) : bool :=
  (year a <? year b)
  || ((year a =? year b)
      && ((month a <? month b) || ((month a =? month b) && (day a <? day b)))).

Definition STEP_TIME_1 : Timestamp := {| year := 2020; month := 3; day := 1 |}.
Definition STEP_TIME_2 : Timestamp := {| year := 2021; month := 3; day := 1 |}.

(** One cell of a column read from the csv file. *)
Inductive cell : Type :=
| CNum (q : Q)
| CStr (s : string)
| CBool (b : bool)
| CNaN.

Definition Q_of_bool (b : bool) : Q := if b then 1%Q else 0%Q.

(** Python's [==] on two cells. *)
Definition py_eq (a b : cell) : bool :=
  match a, b with
  | CNum p, CNum q => Qeq_bool p q
  | CStr s, CStr t => String.eqb s t
  | CBool x, CBool y => Bool.eqb x y
  | CBool x, CNum q | CNum q, CBool x => Qeq_bool (Q_of_bool x) q
  | _, _ => false
  end.

(** Equality as [unique()] and [list.remove] see it: [==], and the NaN
    object is the same as itself. *)
Definition cell_same (a b : cell) : bool :=
  match a, b with
  | CNaN, CNaN => true
  | _, _ => py_eq a b
  end.

Definition isnull (c : cell) : bool :=
  match c with CNaN => true | _ => false end.

(** The columns of the joined measures file.  [V] is the type of the
    three numeric columns: [cell] as read, [option Q] once coerced
    ([None] is NaN). *)
Record MeasureRow (V : Type) : Type := {
  date : Timestamp;
  name : string;
  numerator : V;
  denominator : V;
  value : V;
  group_0 : cell;
  category_0 : cell;
  group_1 : cell;
  category_1 : cell
}.
Arguments date {V} _.
Arguments name {V} _.
Arguments numerator {V} _.
Arguments denominator {V} _.
Arguments value {V} _.
Arguments group_0 {V} _.
Arguments category_0 {V} _.
Arguments group_1 {V} _.
Arguments category_1 {V} _.

(** The label columns, the ones an interaction group or its category
    names. *)
Inductive label : Type := Group0 | Category0 | Group1 | Category1.

Definition label_of_name (c : string) : result label :=
  if String.eqb c "group_0" then Ok Group0
  else if String.eqb c "category_0" then Ok Category0
  else if String.eqb c "group_1" then Ok Group1
  else if String.eqb c "category_1" then Ok Category1
  else Raise (KeyError c).

Definition get_label {V : Type} (l : label) (r : MeasureRow V) : cell :=
  match l with
  | Group0 => group_0 r
  | Category0 => category_0 r
  | Group1 => group_1 r
  | Category1 => category_1 r
  end.

Definition set_label {V : Type} (l : label) (v : cell) (r : MeasureRow V)
  : MeasureRow V :=
  {| date := date r; name := name r;
     numerator := numerator r; denominator := denominator r; value := value r;
     group_0 := match l with Group0 => v | _ => group_0 r end;
     category_0 := match l with Category0 => v | _ => category_0 r end;
     group_1 := match l with Group1 => v | _ => group_1 r end;
     category_1 := match l with Category1 => v | _ => category_1 r end |}.

(** [df[c]] for a label column [c]. *)
Definition column {V : Type} (c : string) (df : list (MeasureRow V))
  : result (list cell) :=
  l <- label_of_name c ;; Ok (map (get_label l) df).

(** ** Series and their dtype *)

Inductive dtype : Type := bool_dtype | numeric_dtype | object_dtype.

Record Series : Type := { s_dtype : dtype; s_values : list cell }.

Definition is_str_cell (c : cell) : bool :=
  match c with CStr _ => true | _ => false end.
Definition is_bool_cell (c : cell) : bool :=
  match c with CBool _ => true | _ => false end.

(** The dtype pandas gives a column with these cells: strings make it
    [object], only booleans [bool], only numbers and NaN a numeric
    dtype. *)
Definition infer_dtype (l : list cell) : dtype :=
  if existsb is_str_cell l then object_dtype
  else if existsb is_bool_cell l
       then (if forallb is_bool_cell l then bool_dtype else object_dtype)
       else numeric_dtype.

Definition series_of (l : list cell) : Series :=
  {| s_dtype := infer_dtype l; s_values := l |}.

Definition is_bool_dtype (s : Series) : bool :=
  match s_dtype s with bool_dtype => true | _ => false end.
(** pandas counts [bool] among the numeric dtypes. *)
Definition is_numeric_dtype (s : Series) : bool :=
  match s_dtype s with object_dtype => false | _ => true end.
Definition is_object_dtype (s : Series) : bool :=
  match s_dtype s with object_dtype => true | _ => false end.

Definition dropna (l : list cell) : list cell :=
  filter (fun c => negb (isnull c)) l.

(** *** Python's [int] *)

(** The ASCII white space [int(str)] ignores around the literal. *)
Definition is_space (a : ascii) : bool :=
  let n := nat_of_ascii a in
  ((9 <=? n) && (n <=? 13) || (28 <=? n) && (n <=? 32))%nat.

Fixpoint lstrip_space (s : string) : string :=
  match s with
  | EmptyString => EmptyString
  | String a s' => if is_space a then lstrip_space s' else s
  end.

Fixpoint rstrip_space (s : string) : string :=
  match s with
  | EmptyString => EmptyString
  | String a s' =>
      match rstrip_space s' with
      | EmptyString => if is_space a then EmptyString else String a EmptyString
      | r => String a r
      end
  end.

Definition digit_of (a : ascii) : option Z :=
  let n := nat_of_ascii a in
  if ((48 <=? n) && (n <=? 57))%nat then Some (Z.of_nat n - 48) else None.

(** Decimal digits with single underscores between them; [acc] is the
    value read so far, the last character read was a digit. *)
Fixpoint int_digits (acc : Z) (s : string) : option Z :=
  match s with
  | EmptyString => Some acc
  | String a s' =>
      match digit_of a with
      | Some d => int_digits (10 * acc + d) s'
      | None =>
          if Ascii.eqb a "_"
          then match s' with
               | String b s'' =>
                   match digit_of b with
                   | Some d => int_digits (10 * acc + d) s''
                   | None => None
                   end
               | EmptyString => None
               end
          else None
      end
  end.

Definition int_unsigned (s : string) : option Z :=
  match s with
  | String a s' =>
      match digit_of a with
      | Some d => int_digits d s'
      | None => None
      end
  | EmptyString => None
  end.

(** [int(s)] for an ASCII string, base 10. *)
Definition int_of_str (s : string) : result Z :=
  let t := rstrip_space (lstrip_space s) in
  let r :=
    match t with
    | String "-" t' => option_map Z.opp (int_unsigned t')
    | String "+" t' => int_unsigned t'
    | _ => int_unsigned t
    end in
  match r with
  | Some z => Ok z
  | None => Raise (ValueError "invalid literal for int() with base 10")
  end.

(** [int(q)] of a float: truncation towards zero. *)
Definition int_of_Q (q : Q) : Z := Z.quot (Qnum q) (Zpos (Qden q)).

(** One element of [series.astype(int)]. *)
Definition astype_int (c : cell) : result Z :=
  match c with
  | CNum q => Ok (int_of_Q q)
  | CStr s => int_of_str s
  | CBool b => Ok (if b then 1 else 0)
  | CNaN => Raise (ValueError "cannot convert float NaN to integer")
  end.

Definition zero_or_one (c : cell) : bool :=
  py_eq c (CNum 0) || py_eq c (CNum 1).

Definition cell_of_Z (z : Z) : cell := CNum (inject_Z z).

(** [is_bool_as_int]: does the series hold only 0 and 1 without being of
    [bool] dtype? *)
Definition is_bool_as_int (series : Series) : bool :=
  if negb (is_bool_dtype series) && is_numeric_dtype series then
    let series := dropna (s_values series) in
    forallb zero_or_one series
  else if negb (is_bool_dtype series) && is_object_dtype series then
    match mapM astype_int (s_values series) with
    | Raise _ => false
    | Ok ints =>
        let series := dropna (map cell_of_Z ints) in
        forallb zero_or_one series
    end
  else false.

Definition series_to_bool (series : Series) : result Series :=
  if is_bool_as_int series then
    ints <- mapM astype_int (s_values series) ;;
    Ok {| s_dtype := bool_dtype;
          s_values := map (fun z => CBool (negb (z =? 0))) ints |}
  else Ok series.

(** ** Float arithmetic of the inference code

    [numpy.exp], the float subtraction and product, and the rendering
    [round(x, n).astype(str)] are taken as an interface: the statements
    below hold for every implementation of it. *)

Class FloatOps (num : Type) : Type := {
  fsub : num -> num -> num;
  fmul : num -> num -> num;
  fexp : num -> num;
  fconst : Z -> num
}.

Class FloatText (num : Type) : Type := {
  fround : num -> Z -> num;
  fstr : num -> string
}.

(** One coefficient of a fitted model: [model.params] and the two columns
    of [model.conf_int()], all on the log scale. *)
Record Coef (num : Type) : Type := {
  c_name : string;
  c_coef : num;
  c_lower : num;
  c_upper : num
}.
Arguments c_name {num} _.
Arguments c_coef {num} _.
Arguments c_lower {num} _.
Arguments c_upper {num} _.

(** What the code reads of a statsmodels results object. *)
Record FittedModel (num : Type) : Type := {
  coefficients : list (Coef num);
  converged : bool;
  llf : num;
  summary : string
}.
Arguments coefficients {num} _.
Arguments converged {num} _.
Arguments llf {num} _.
Arguments summary {num} _.

(** The numeric columns of the frame [get_ci_df] builds. *)
Record CINum (num : Type) : Type := {
  coef : num;
  lci : num;
  uci : num;
  error : num
}.
Arguments coef {num} _.
Arguments lci {num} _.
Arguments uci {num} _.
Arguments error {num} _.

Record CIRow (num : Type) : Type := {
  ci_name : string;
  ci_num : CINum num;
  pcnt : string
}.
Arguments ci_name {num} _.
Arguments ci_num {num} _.
Arguments pcnt {num} _.

(** A row of the frame [pcnt_change] returns: the index pair
    [(change, group)], the [category] column and the columns of
    [get_ci_df]. *)
Record ForestEntry (num : Type) : Type := {
  change : string;
  group : string;
  category : cell;
  fe_num : CINum num;
  fe_pcnt : string
}.
Arguments change {num} _.
Arguments group {num} _.
Arguments category {num} _.
Arguments fe_num {num} _.
Arguments fe_pcnt {num} _.

(** ** The interrupted time series frame *)

Record ItsRow : Type := {
  obs : MeasureRow (option Q);
  rate : option Q;
  time : Z;
  step : Z;
  slope : Z;
  step2 : Z;
  slope2 : Z;
  mar20 : Z;
  april20 : Z;
  index : Z
}.

(** The frame the model is fitted on: the ITS frame with the two
    harmonics next to it. *)
Record ModelRow (H : Type) : Type := {
  its : ItsRow;
  s1 : H;
  c1 : H
}.
Arguments its {H} _.
Arguments s1 {H} _.
Arguments c1 {H} _.

Inductive cov_type : Type :=
| HAC (maxlags : Z)
| hac_groupsum (time_index : list Z) (maxlags : Z).

(** Python's [min] of a sequence. *)
Definition py_min (l : list Z) : result Z :=
  match l with
  | [] => Raise (ValueError "min() arg is an empty sequence")
  | x :: l' => Ok (fold_left Z.min l' x)
  end.

(** [unique()]: the values in order of first appearance. *)
Fixpoint unique (l : list cell) : list cell :=
  match l with
  | [] => []
  | c :: l' => c :: filter (fun d => negb (cell_same c d)) (unique l')
  end.

(** [l.remove(x)]: the first element equal to [x] goes, and there must be
    one. *)
Fixpoint list_remove (x : cell) (l : list cell) : result (list cell) :=
  match l with
  | [] => Raise (ValueError "list.remove(x): x not in list")
  | c :: l' =>
      if cell_same c x then Ok l'
      else (r <- list_remove x l' ;; Ok (c :: r))
  end.

(** [cat.reorder_categories(levels)]: the categories of a categorical
    column are its non-null values, and the new order must list exactly
    them. *)
Definition reorder_categories (levels : list cell) : result (list cell) :=
  if existsb isnull levels
  then Raise (ValueError
         "items in new_categories are not the same as in old categories")
  else Ok levels.

Definition time_of (min_year : Z) (d : Timestamp) : Z :=
  12 * (year d - min_year) + month d.

(** [df[df["date"] == cutdate].iloc[0].time - 1]. *)
Definition cutmonth (min_year : Z) (df : list (MeasureRow (option Q)))
  (cutdate : Timestamp) : result Z :=
  match filter (fun r => ts_eqb (date r) cutdate) df with
  | r :: _ => Ok (time_of min_year (date r) - 1)
  | [] => Raise (IndexError "single positional indexer is out-of-bounds")
  end.

Definition get_its_variables (dataframe : list (MeasureRow (option Q)))
  (cutdate1 cutdate2 : Timestamp) : result (list ItsRow) :=
  let df := dataframe in
  min_year <- py_min (map (fun r => year (date r)) df) ;;
  cutmonth1 <- cutmonth min_year df cutdate1 ;;
  cutmonth2 <- cutmonth min_year df cutdate2 ;;
  Ok (map (fun r =>
             let x_time := time_of min_year (date r) in
             {| obs := r;
                rate := option_map (Qmult 1000) (value r);
                time := x_time;
                step := if x_time >? cutmonth1 then 1 else 0;
                slope := Z.max (x_time - cutmonth1) 0;
                step2 := if x_time >? cutmonth2 then 1 else 0;
                slope2 := Z.max (x_time - cutmonth2) 0;
                mar20 := if x_time =? cutmonth1 + 1 then 1 else 0;
                april20 := if x_time =? cutmonth1 + 2 then 1 else 0;
                index := x_time |}) df).

(** The column labels of the frame [get_fourier] returns. *)
Definition fourier_columns : list string := ["s1"; "c1"].

Definition get_formula (df : list ItsRow) (fourier_terms : option (list string))
  (interaction_group : option string) (reference : option cell)
  : result (string * option (list cell)) :=
  let formula :=
    "numerator ~ time + step + slope + mar20 + april20 + step2 + slope2" in
  fc <- match interaction_group with
        | Some g =>
            col <- column g (map obs df) ;;
            let levels := unique col in
            match reference with
            | Some reference =>
                levels <- list_remove reference levels ;;
                let levels := reference :: levels in
                categories <- reorder_categories levels ;;
                Ok ((formula ++ "+ step*" ++ g ++ " + slope*" ++ g
                             ++ " + step2*" ++ g ++ " + slope2*" ++ g)%string,
                    Some categories)
            | None =>
                (* [None] is no level of a column *)
                Raise (ValueError "list.remove(x): x not in list")
            end
        | None => Ok (formula, None)
        end ;;
  let formula :=
    match fourier_terms with
    | Some terms => (fst fc ++ "+ " ++ PyStr.join "+" terms)%string
    | None => fst fc
    end in
  Ok (formula, snd fc).

(** ** Loading, fitting and reporting *)

Section Pipeline.

(** [pandas.to_numeric] on a string: the number it reads, if any. *)
Variable to_number : string -> option Q.
(** [str] of a number, as an f-string renders it. *)
Variable str_of_num : Q -> string.
(** [fnmatch.fnmatch name pattern]. *)
Variable fnmatch : string -> string -> bool.
(** The harmonics [Fourier(12, order=2)] gives the row at a position:
    its [s1] and [c1]. *)
Variable H : Type.
Variable fourier_in_sample : nat -> H * H.
(** Floats of statsmodels. *)
Variable num : Type.
Context {ops : FloatOps num} {text : FloatText num}.
(** [smf.poisson(formula, data, exposure).fit(cov_type, cov_kwds,
    maxiter)]; the categories [get_formula] has set on the grouping
    column are part of the data. *)
Variable poisson_fit :
  string -> list (ModelRow H) -> option (list cell) -> cov_type -> Z ->
  result (FittedModel num).
(** One row of [model.get_prediction(df).summary_frame(alpha=0.05)] and
    of [model.predict(df)]. *)
Variable Summary : Type.
Variable get_prediction : FittedModel num -> ModelRow H -> Summary.
Variable predict : FittedModel num -> ModelRow H -> num.

(** One element of [pandas.to_numeric(column, errors="coerce")]. *)
Definition to_numeric (c : cell) : option Q :=
  match c with
  | CNum q => Some q
  | CStr s => to_number s
  | CBool b => Some (Q_of_bool b)
  | CNaN => None
  end.

Definition coerce_numeric (table : list (MeasureRow cell))
  : list (MeasureRow (option Q)) :=
  map (fun r =>
         {| date := date r; name := name r;
            numerator := to_numeric (numerator r);
            denominator := to_numeric (denominator r);
            value := to_numeric (value r);
            group_0 := group_0 r; category_0 := category_0 r;
            group_1 := group_1 r; category_1 := category_1 r |}) table.

Definition match_paths (files : list string) (pattern : string) : list string :=
  filter (fun f => fnmatch f pattern) files.

Definition subset_table {V : Type} (measure_table : list (MeasureRow V))
  (measures_pattern : string) : result (list (MeasureRow V)) :=
  let measures_list := match_paths (map name measure_table) measures_pattern in
  if (List.length measures_list =? 0)%nat
  then Raise (ValueError
         ("Pattern did not match any files: " ++ measures_pattern)%string)
  else Ok (filter (fun r => existsb (String.eqb (name r)) measures_list)
                  measure_table).

Definition set_column {V : Type} (l : label) (vals : list cell)
  (df : list (MeasureRow V)) : list (MeasureRow V) :=
  map (fun rv => set_label l (snd rv) (fst rv)) (combine df vals).

(** [flatten].  [dropna(axis=1, how="all")] removes the columns that
    hold no value; of those the model follows [group_0] and
    [category_0], the two that [flatten] reads. *)
Definition flatten {V : Type} (df : list (MeasureRow V))
  : result (list (MeasureRow V)) :=
  if forallb isnull (map group_0 df) then Raise (AttributeError "group_0")
  else
    g <- series_to_bool (series_of (map group_0 df)) ;;
    let df := set_column Group0 (s_values g) df in
    if forallb isnull (map category_0 df) then Raise (KeyError "category_0")
    else if (List.length (unique (map category_0 df)) =? 1)%nat && is_bool_dtype g
         then Ok (filter (fun r => match group_0 r with
                                   | CBool b => b
                                   | _ => false
                                   end) df)
         else Ok df.

(** The text an f-string puts for a cell. *)
Definition format_cell (c : cell) : string :=
  match c with
  | CStr s => s
  | CNum q => str_of_num q
  | CBool b => if b then "True" else "False"
  | CNaN => "nan"
  end.

(** The relabelling of a 0/1 grouping column in [get_model]. *)
Definition relabel_flag {V : Type} (interaction_group : string)
  (numeric : list (MeasureRow V)) : result (list (MeasureRow V)) :=
  g <- label_of_name interaction_group ;;
  let bool_as_int := is_bool_as_int (series_of (map (get_label g) numeric)) in
  let interaction_category :=
    PyStr.replace "group" "category" interaction_group in
  if bool_as_int then
    mapM (fun x =>
            c <- label_of_name interaction_category ;;
            Ok (set_label g
                  (CStr (if py_eq (get_label g x) (CStr "1")
                         then "Recored " ++ format_cell (get_label c x)
                         else "No recorded " ++ format_cell (get_label c x)))
                  x))
         numeric
  else Ok numeric.

Definition get_fourier (df : list ItsRow) : list (H * H) :=
  map fourier_in_sample (seq 0 (List.length df)).

(** [get_regression]: what it prints, and what it returns or raises.
    [categories] is the order of the levels that [get_formula] has left on
    the grouping column of [df]. *)
Definition get_regression (df : list (ModelRow H))
  (categories : option (list cell)) (lags : Z) (formula : string)
  (interaction_group : option string)
  : list string * result (FittedModel num) :=
  let fit :=
    match interaction_group with
    | None => poisson_fit formula df categories (HAC lags) 200
    | Some _ =>
        poisson_fit formula df categories
          (hac_groupsum (map (fun r => index (its r)) df) lags) 200
    end in
  match fit with
  | Raise e => ([], Raise e)
  | Ok model_errors =>
      ([summary model_errors],
       if negb (converged model_errors)
       then Raise (ConvergenceWarning "Failed to converge")
       else Ok model_errors)
  end.

Definition november_2022 : Timestamp := {| year := 2022; month := 11; day := 1 |}.

Definition get_model (measure_table : list (MeasureRow cell))
  (pattern : string) (interaction_group : option string)
  (reference : option cell) (convert_flat : bool)
  : list string * result (FittedModel num * list (ModelRow H)) :=
  let prepared :=
    subset <- subset_table measure_table pattern ;;
    subset <- match interaction_group with
              | Some g =>
                  l <- label_of_name g ;;
                  Ok (filter (fun r => negb (isnull (get_label l r))) subset)
              | None => Ok subset
              end ;;
    let numeric := coerce_numeric subset in
    let numeric :=
      filter (fun r => negb (ts_eqb (date r) november_2022)) numeric in
    numeric <- (if convert_flat then flatten numeric else Ok numeric) ;;
    numeric <- match interaction_group with
               | Some g => relabel_flag g numeric
               | None => Ok numeric
               end ;;
    df <- get_its_variables numeric STEP_TIME_1 STEP_TIME_2 ;;
    let fourier := get_fourier df in
    fc <- get_formula df (Some fourier_columns) interaction_group reference ;;
    let df := map (fun rf => {| its := fst rf;
                                s1 := fst (snd rf);
                                c1 := snd (snd rf) |}) (combine df fourier) in
    Ok (df, fc) in
  match prepared with
  | Raise e => ([], Raise e)
  | Ok (df, (formula, categories)) =>
      let (out, fit) := get_regression df categories 2 formula interaction_group in
      (out, model <- fit ;; Ok (model, df))
  end.

(** The percent change [100 * (exp(x) - 1)]. *)
Definition pcnt_of (x : num) : num :=
  fmul (fconst 100) (fsub (fexp x) (fconst 1)).

(** [f(df)] for an elementwise [f]: every numeric column of the frame. *)
Definition frame_map (f : num -> num) (r : CINum num) : CINum num :=
  {| coef := f (coef r); lci := f (lci r); uci := f (uci r);
     error := f (error r) |}.

Definition get_ci_df (model : FittedModel num) (round_to : Z)
  : list (CIRow num) :=
  (* coef, cis and their concat *)
  let df := map (fun c => (c_name c, (c_coef c, c_lower c, c_upper c)))
                (coefficients model) in
  (* df["error"] = df.coef - df.lci *)
  let df := map (fun r => let '(n, (c, l, u)) := r in
                          (n, {| coef := c; lci := l; uci := u;
                                 error := fsub c l |})) df in
  (* df = 100 * (numpy.exp(df) - 1) *)
  let df := map (fun r => (fst r, frame_map pcnt_of (snd r))) df in
  map (fun r =>
         let d := snd r in
         {| ci_name := fst r;
            ci_num := d;
            pcnt := (fstr (fround (coef d) round_to) ++ "% ("
                     ++ fstr (fround (lci d) round_to) ++ "% to "
                     ++ fstr (fround (uci d) round_to) ++ "%)")%string |}) df.

(** The body of the loop over the keys in [pcnt_change]. *)
Definition split_key (key : string) : result (string * string) :=
  match PyStr.split "." key with
  | [x; y] =>
      let x := if PyStr.contains_char ":" x
               then hd EmptyString (PyStr.split ":" x)
               else "baseline" in
      let group := PyStr.rstrip "]" y in
      Ok (x, group)
  | [_] => Raise (ValueError "not enough values to unpack (expected 2, got 1)")
  | _ => Raise (ValueError "too many values to unpack (expected 2)")
  end.

(** The rows [pcnt_change] keeps of the frame of [get_ci_df], and their
    new index. *)
Definition forest_rows (name : cell) (df : list (CIRow num))
  : result (list (ForestEntry num)) :=
  let df := filter (fun r => PyStr.search_T_any (ci_name r)) df in
  let keys := map ci_name df in
  indices <- mapM split_key keys ;;
  Ok (map (fun ri => {| change := fst (snd ri); group := snd (snd ri);
                        category := name;
                        fe_num := ci_num (fst ri);
                        fe_pcnt := pcnt (fst ri) |}) (combine df indices)).

Definition pcnt_change (measure_table : list (MeasureRow cell))
  (pattern : string) (interaction_group : option string)
  (reference : option cell) (convert_flat : bool)
  : list string * result (list (ForestEntry num)) :=
  let (out, fitted) :=
    get_model measure_table pattern interaction_group reference convert_flat in
  (out,
   md <- fitted ;;
   let model := fst md in
   let its_data := snd md in
   let category_name :=
     match interaction_group with
     | Some g => ("category_" ++ last (PyStr.split "_" g) EmptyString)%string
     | None => "category_0"
     end in
   col <- column category_name (map (fun r => obs (its r)) its_data) ;;
   name <- match unique col with
           | n :: _ => Ok n
           | [] => Raise (IndexError "index 0 is out of bounds")
           end ;;
   let df := get_ci_df model 2 in
   forest_rows name df).

(** [cf_df]: no intervention at all. *)
Definition no_intervention (r : ModelRow H) : ModelRow H :=
  {| its := {| obs := obs (its r); rate := rate (its r); time := time (its r);
               step := 0; slope := 0; step2 := 0; slope2 := 0;
               mar20 := 0; april20 := 0; index := index (its r) |};
     s1 := s1 r; c1 := c1 r |}.

(** [cf2_df]: no second intervention. *)
Definition no_recovery (r : ModelRow H) : ModelRow H :=
  {| its := {| obs := obs (its r); rate := rate (its r); time := time (its r);
               step := step (its r); slope := slope (its r);
               step2 := 0; slope2 := 0;
               mar20 := mar20 (its r); april20 := april20 (its r);
               index := index (its r) |};
     s1 := s1 r; c1 := c1 r |}.

(** [plot_cf].  It computes three series, each indexed by [date]:
    [predictions], [cf] and [cf2].  Its first drawing call, [ax.scatter],
    then reads the name [ax], which is bound neither in the function nor in
    the module: the call raises [NameError], and the function never
    returns.  The embedding gives the local state at that point, the three
    series, next to that outcome. *)
Definition plot_cf (model : FittedModel num) (df : list (ModelRow H))
  : (list (Timestamp * Summary) * list (Timestamp * Summary)
     * list (Timestamp * num))
    * result unit :=
  let dates r := date (obs (its r)) in
  let predictions := map (fun r => (dates r, get_prediction model r)) df in
  let cf_df := map no_intervention df in
  let cf := map (fun r => (dates r, get_prediction model r)) cf_df in
  let cf2_df := map no_recovery df in
  let cf2 := map (fun r => (dates r, predict model r)) cf2_df in
  ((predictions, cf, cf2), Raise (NameError "name 'ax' is not defined")).

End Pipeline.

Arguments get_fourier {H} fourier_in_sample df.
Arguments get_regression {H num} poisson_fit df categories lags formula
  interaction_group.
Arguments get_model to_number str_of_num fnmatch {H} fourier_in_sample {num}
  poisson_fit measure_table pattern interaction_group reference convert_flat.
Arguments pcnt_of {num ops} x.
Arguments frame_map {num} f r.
Arguments get_ci_df {num ops text} model round_to.
Arguments forest_rows {num} name df.
Arguments pcnt_change to_number str_of_num fnmatch {H} fourier_in_sample
  {num ops text} poisson_fit measure_table pattern interaction_group reference
  convert_flat.
Arguments no_intervention {H} r.
Arguments no_recovery {H} r.
Arguments plot_cf {H num Summary} get_prediction predict model df.

(** ** Vocabulary of the statements *)

(** The coefficient names that do not come from the grouping column. *)
Definition plain_names : list string :=
  ["Intercept"; "time"; "step"; "slope"; "mar20"; "april20"; "step2"; "slope2";
   "s1"; "c1"].

(** The terms that [get_formula] crosses with the grouping column. *)
Definition crossed_terms : list string := ["step"; "slope"; "step2"; "slope2"].

(** The name of the treatment-coded column of level [l] of the grouping
    column [g], as patsy writes it. *)
Definition level_name (g l : string) : string := (g ++ "[T." ++ l ++ "]")%string.

(** The name of the column of [term] crossed with that level. *)
Definition cross_name (term g l : string) : string :=
  (term ++ ":" ++ level_name g l)%string.

(** The names of the rows of one level: its main effect and its four
    cross terms. *)
Definition treatment_names (g l : string) : list string :=
  level_name g l :: map (fun t => cross_name t g l) crossed_terms.

(** A frame with an intercept, the main effect of level [F] and one of its
    cross terms. *)
Definition forest_example : list (CIRow Z) :=
  map (fun n => {| ci_name := n;
                   ci_num := {| coef := 0; lci := 0; uci := 0; error := 0 |};
                   pcnt := "" |})
      ["Intercept"; "group_0[T.F]"; "step:group_0[T.F]"].

(** *** Calendar *)

(** A date pandas can hold: a month of the year, a day from the first
    on. *)
Definition valid_date (d : Timestamp) : bool :=
  (1 <=? month d) && (month d <=? 12) && (1 <=? day d).

(** [b] is in the month after the month of [a]. *)
Definition next_month (a b : Timestamp) : bool :=
  ((month a <? 12) && (year b =? year a) && (month b =? month a + 1))
  || ((month a =? 12) && (year b =? year a + 1) && (month b =? 1)).

(** A monthly series without a gap: every row is in the month after the
    month of the row before it. *)
Fixpoint gap_free (l : list Timestamp) : bool :=
  match l with
  | a :: (b :: _) as l' => next_month a b && gap_free l'
  | _ => true
  end.

(** Every element is the one before it plus one. *)
Fixpoint by_one (l : list Z) : bool :=
  match l with
  | a :: (b :: _) as l' => (b =? a + 1) && by_one l'
  | _ => true
  end.

(** The row [get_its_variables] makes of a row of the input, given the
    first year and the two cutoff months. *)
Definition its_row (min_year cutmonth1 cutmonth2 : Z)
  (r : MeasureRow (option Q)) : ItsRow :=
  let x_time := time_of min_year (date r) in
  {| obs := r;
     rate := option_map (Qmult 1000) (value r);
     time := x_time;
     step := if x_time >? cutmonth1 then 1 else 0;
     slope := Z.max (x_time - cutmonth1) 0;
     step2 := if x_time >? cutmonth2 then 1 else 0;
     slope2 := Z.max (x_time - cutmonth2) 0;
     mar20 := if x_time =? cutmonth1 + 1 then 1 else 0;
     april20 := if x_time =? cutmonth1 + 2 then 1 else 0;
     index := x_time |}.

(** *** A small table *)

(** The row of month [m] of year [y] of one series. *)
Definition month_row (y m : Z) : MeasureRow (option Q) :=
  {| date := {| year := y; month := m; day := 1 |};
     name := "antidepressant_any_all_total_rate";
     numerator := Some 10%Q; denominator := Some 1000%Q;
     value := Some (1 # 100)%Q;
     group_0 := CNaN; category_0 := CNaN;
     group_1 := CNaN; category_1 := CNaN |}.

(** Fourteen months in a row, from February 2020 to March 2021. *)
Definition monthly_example : list (MeasureRow (option Q)) :=
  map (month_row 2020) [2; 3; 4; 5; 6; 7; 8; 9; 10; 11; 12]
  ++ map (month_row 2021) [1; 2; 3].

(** Its ITS frame, and the frame of a model without harmonics on it. *)
Definition monthly_its : list ItsRow := map (its_row 2020 2 14) monthly_example.

Definition monthly_frame : list (ModelRow unit) :=
  map (fun x => {| its := x; s1 := tt; c1 := tt |}) monthly_its.

(** A fitted model of one coefficient. *)
Definition one_coef_model (n : string) (c l u : Z) (ok : bool) : FittedModel Z :=
  {| coefficients := [{| c_name := n; c_coef := c; c_lower := l; c_upper := u |}];
     converged := ok; llf := 0; summary := "Poisson Regression Results" |}.

Definition february_2020 : ModelRow unit :=
  {| its := its_row 2020 2 14 (month_row 2020 2); s1 := tt; c1 := tt |}.

(** Two predictors that read the intervention regressors of a row. *)
Definition example_prediction (m : FittedModel Z) (r : ModelRow unit) : Z * Z :=
  (time (its r), step (its r) + slope (its r) + mar20 (its r) + april20 (its r)
                 + step2 (its r) + slope2 (its r)).

Definition example_predict (m : FittedModel Z) (r : ModelRow unit) : Z :=
  time (its r) + step2 (its r) + slope2 (its r).

(** *** Formula terms *)

Definition strip (s : string) : string := PyStr.lstrip " " (PyStr.rstrip " " s).

(** The regressors a formula lists: what stands between the plus signs of
    its right-hand side. *)
Definition formula_terms (formula : string) : list string :=
  match PyStr.split "~" formula with
  | [_; rhs] => map strip (PyStr.split "+" rhs)
  | _ => []
  end.

Definition base_terms : list string :=
  ["time"; "step"; "slope"; "mar20"; "april20"; "step2"; "slope2"].

(** *** Entries of the numeric columns *)

(** An entry [to_numeric] reads no number in: a string that is no number
    for pandas, or an entry that is missing already. *)
Definition non_numeric (to_number : string -> option Q) (c : cell) : bool :=
  match c with
  | CNum _ | CBool _ => false
  | CStr s => match to_number s with Some _ => false | None => true end
  | CNaN => true
  end.

(** What [to_numeric] makes of an entry: nothing of one that is not
    numeric, never the number zero; the number itself of a number; of a
    string that spells a number, that number; of a boolean, 1 or 0. *)
Definition coerced (to_number : string -> option Q) (c : cell) (v : option Q)
  : Prop :=
  (non_numeric to_number c = true -> v = None /\ v <> Some 0%Q)
  /\ (forall q, c = CNum q -> v = Some q)
  /\ (forall s q, c = CStr s -> to_number s = Some q -> v = Some q)
  /\ (forall b, c = CBool b -> v = Some (Q_of_bool b)).

(** A reader of numbers that knows the decimal integers. *)
Definition integer_to_number (s : string) : option Q :=
  match int_of_str s with
  | Ok z => Some (inject_Z z)
  | Raise _ => None
  end.

(** A row as read from the file, with a redacted value. *)
Definition redacted_row : MeasureRow cell :=
  {| date := STEP_TIME_1; name := "antidepressant_any_all_total_rate";
     numerator := CStr "[REDACTED]"; denominator := CNum 1000;
     value := CStr "[REDACTED]";
     group_0 := CNaN; category_0 := CNaN;
     group_1 := CNaN; category_1 := CNaN |}.

(** A row as read whose value is the string ["12"]. *)
Definition twelve_row : MeasureRow cell :=
  {| date := STEP_TIME_2; name := "antidepressant_any_all_total_rate";
     numerator := CNum 12; denominator := CNum 1; value := CStr "12";
     group_0 := CNaN; category_0 := CNaN;
     group_1 := CNaN; category_1 := CNaN |}.

(** A row of the autism breakdown with the flag [g]. *)
Definition flag_row (g : cell) : MeasureRow cell :=
  {| date := STEP_TIME_1; name := "antidepressant_any_autism_total_rate";
     numerator := CNum 10; denominator := CNum 1000; value := CNum (1 # 100);
     group_0 := g; category_0 := CStr "autism";
     group_1 := CNaN; category_1 := CNaN |}.

(** *** A fit that answers with a given model *)

Definition constant_fit (m : FittedModel Z) (formula : string)
  (df : list (ModelRow unit)) (categories : option (list cell))
  (cov : cov_type) (maxiter : Z) : result (FittedModel Z) := Ok m.

(** The covariance [get_regression] asks for. *)
Definition cov_of {H : Type} (df : list (ModelRow H)) (lags : Z)
  (interaction_group : option string) : cov_type :=
  match interaction_group with
  | None => HAC lags
  | Some _ => hac_groupsum (map (fun r => index (its r)) df) lags
  end.

(** *** A breakdown by sex *)

(** An ITS frame of three rows whose grouping column reads F, M, U. *)
Definition sex_frame : list ItsRow :=
  map (fun g =>
         its_row 2020 2 14
           {| date := STEP_TIME_1; name := "antidepressant_any_sex_total_rate";
              numerator := Some 10%Q; denominator := Some 1000%Q;
              value := Some (1 # 100)%Q;
              group_0 := CStr g; category_0 := CStr "sex";
              group_1 := CNaN; category_1 := CNaN |})
      ["F"; "M"; "U"; "M"; "F"].

(** *** The table of the intervals *)

(** The [mapping] of [translate_to_ci]: for each regressor the two levels
    of its column heading, in the order of the dictionary. *)
Definition ci_mapping : list (string * (string * string)) :=
  [("time", ("", "Pre-COVID-19 monthly slope (95% CI)"));
   ("mar20", ("", "March 2020 (95% CI)"));
   ("april20", ("", "April 2020 (95% CI)"));
   ("slope", ("Lockdown period", "Change in slope (95% CI)"));
   ("step", ("Lockdown period", "Level shift (95% CI)"));
   ("slope2", ("Recovery period", "Change in slope (95% CI)"));
   ("step2", ("Recovery period", "Level shift (95% CI)"))].

(** The rows of [df] that the index names [k]. *)
Definition rows_named {num : Type} (df : list (CIRow num)) (k : string)
  : list (CIRow num) :=
  filter (fun r => String.eqb (ci_name r) k) df.

(** [df.loc[keys]]: for each key in turn the rows it names, and
    [KeyError] when a key names no row. *)
Definition loc_rows {num : Type} (keys : list string) (df : list (CIRow num))
  : result (list (CIRow num)) :=
  rows <- mapM (fun k => match rows_named df k with
                         | [] => Raise (KeyError k)
                         | rs => Ok rs
                         end) keys ;;
  Ok (List.concat rows).

(** [translate_to_ci]: the one row of the table, under [name], with a
    column for each entry of the mapping.  [set_index] wants as many rows
    as there are headings. *)
Definition translate_to_ci {num : Type} {ops : FloatOps num}
  {text : FloatText num} (model : FittedModel num) (name : string)
  : result (string * list ((string * string) * string)) :=
  let df := get_ci_df model 2 in
  df <- loc_rows (map fst ci_mapping) df ;;
  if (List.length df =? List.length ci_mapping)%nat
  then Ok (name, combine (map snd ci_mapping) (map (@pcnt num) df))
  else Raise (ValueError "Length mismatch").

(** *** A table as read *)

Definition raw_row (n : string) (y m : Z) (v : cell) : MeasureRow cell :=
  {| date := {| year := y; month := m; day := 1 |}; name := n;
     numerator := CNum 10; denominator := CNum 1000; value := v;
     group_0 := CNaN; category_0 := CNaN;
     group_1 := CNaN; category_1 := CNaN |}.

(** Two series: the months of the two cutoffs and November 2022 of one,
    a month of another. *)
Definition raw_example : list (MeasureRow cell) :=
  [raw_row "any_all" 2020 3 (CNum (1 # 100));
   raw_row "any_new" 2020 3 (CNum (1 # 200));
   raw_row "any_all" 2021 3 (CStr "[REDACTED]");
   raw_row "any_all" 2022 11 (CNum (1 # 100))].

(** A breakdown by sex as read: the months of the two cutoffs, each for F
    and for M. *)
Definition sex_raw_row (y m : Z) (g : string) : MeasureRow cell :=
  {| date := {| year := y; month := m; day := 1 |}; name := "any_sex";
     numerator := CNum 10; denominator := CNum 1000; value := CNum (1 # 100);
     group_0 := CStr g; category_0 := CStr "sex";
     group_1 := CNaN; category_1 := CNaN |}.

Definition sex_raw : list (MeasureRow cell) :=
  [sex_raw_row 2020 3 "F"; sex_raw_row 2020 3 "M";
   sex_raw_row 2021 3 "F"; sex_raw_row 2021 3 "M"].

(** A pattern without wildcards matches the name it spells. *)
Definition exact_match (n pattern : string) : bool := String.eqb n pattern.

Definition no_harmonics (i : nat) : unit * unit := (tt, tt).

(** The frame [get_model] makes of the series ["any_all"] of the example. *)
Definition raw_example_frame : list (ModelRow unit) :=
  map (fun x => {| its := x; s1 := tt; c1 := tt |})
      (map (its_row 2020 2 14)
           (coerce_numeric integer_to_number
              [raw_row "any_all" 2020 3 (CNum (1 # 100));
               raw_row "any_all" 2021 3 (CStr "[REDACTED]")])).

(** The rows [get_model] derives the regressors of, before the
    relabelling: the rows of the pattern, without the rows that have no
    group, coerced, without November 2022. *)
Definition prepared_rows (to_number : string -> option Q)
  (fnmatch : string -> string -> bool) (interaction_group : option string)
  (measure_table : list (MeasureRow cell)) (pattern : string)
  : list (MeasureRow (option Q)) :=
  filter (fun r => negb (ts_eqb (date r) november_2022))
    (coerce_numeric to_number
       (filter (fun r =>
                  match interaction_group with
                  | Some g => match label_of_name g with
                              | Ok l => negb (isnull (get_label l r))
                              | Raise _ => true
                              end
                  | None => true
                  end)
               (filter (fun r => fnmatch (name r) pattern) measure_table))).

(** ** Strings: splitting, counting, stripping *)

Module PyStrFacts.
Import PyStr.

Local Open Scope string_scope.

Lemma contains_char_app (c : ascii) (a b : string) :
  contains_char c (a ++ b) = contains_char c a || contains_char c b.
Proof.
  induction a as [|x a IH]; simpl; [reflexivity|].
  rewrite IH. now rewrite orb_assoc.
Qed.

Lemma count_char_app (c : ascii) (a b : string) :
  count_char c (a ++ b) = (count_char c a + count_char c b)%nat.
Proof.
  induction a as [|x a IH]; simpl; [reflexivity|].
  destruct (Ascii.eqb x c); simpl; now rewrite IH.
Qed.

Lemma count_char_zero (c : ascii) (s : string) :
  count_char c s = O <-> contains_char c s = false.
Proof.
  induction s as [|x s IH]; simpl; [tauto|].
  destruct (Ascii.eqb x c); simpl; [split; discriminate | exact IH].
Qed.

Lemma contains_char_count (c : ascii) (s : string) :
  contains_char c s = true -> (1 <= count_char c s)%nat.
Proof.
  intros H. destruct (count_char c s) eqn:E; [|lia].
  apply count_char_zero in E. congruence.
Qed.

Lemma split_not_nil (c : ascii) (s : string) : split c s <> [].
Proof.
  destruct s as [|x s]; simpl; [discriminate|].
  destruct (Ascii.eqb x c); [discriminate|].
  destruct (split c s); discriminate.
Qed.

(** [split] gives one piece more than there are separators. *)
Lemma split_length (c : ascii) (s : string) :
  List.length (split c s) = S (count_char c s).
Proof.
  induction s as [|x s IH]; simpl; [reflexivity|].
  destruct (Ascii.eqb x c); simpl; [now rewrite IH|].
  destruct (split c s) eqn:E; simpl in *; [discriminate | exact IH].
Qed.

Lemma split_no_sep (c : ascii) (s : string) :
  contains_char c s = false -> split c s = [s].
Proof.
  induction s as [|x s IH]; simpl; [reflexivity|].
  destruct (Ascii.eqb x c); simpl; [discriminate|].
  intros H. now rewrite (IH H).
Qed.

(** The first piece ends at the first separator. *)
Lemma split_first (c : ascii) (a b : string) :
  contains_char c a = false ->
  split c (a ++ String c b) = a :: split c b.
Proof.
  induction a as [|x a IH]; simpl.
  - intros _. now rewrite Ascii.eqb_refl.
  - destruct (Ascii.eqb x c); simpl; [discriminate|].
    intros H. now rewrite (IH H).
Qed.

Lemma rstrip_snoc (c : ascii) (s : string) :
  rstrip c (s ++ String c EmptyString) = rstrip c s.
Proof.
  induction s as [|x s IH]; simpl.
  - now rewrite Ascii.eqb_refl.
  - now rewrite IH.
Qed.

Lemma search_T_any_app_r (a b : string) :
  search_T_any b = true -> search_T_any (a ++ b) = true.
Proof.
  intros H. induction a as [|x a IH]; simpl; [exact H|].
  rewrite IH. apply orb_true_r.
Qed.

(** A treatment-coded name has its ['T'] followed by the dot. *)
Lemma search_T_any_level (g l : string) :
  search_T_any (level_name g l) = true.
Proof.
  unfold level_name. apply search_T_any_app_r. reflexivity.
Qed.

Lemma search_T_any_cross (t g l : string) :
  search_T_any (cross_name t g l) = true.
Proof.
  unfold cross_name. apply search_T_any_app_r.
  change (search_T_any (String ":" (level_name g l)) = true).
  simpl. apply search_T_any_level.
Qed.

End PyStrFacts.

(** ** The key decomposition of [pcnt_change] *)

Section KeyDecomposition.
Import PyStr PyStrFacts.

Local Open Scope string_scope.

Lemma string_app_assoc (a b c : string) : (a ++ b) ++ c = a ++ (b ++ c).
Proof. induction a as [|x a IH]; simpl; [reflexivity | now rewrite IH]. Qed.

Lemma mapM_is_ok {A B : Type} (f : A -> result B) (l : list A) :
  is_ok (mapM f l) = forallb (fun a => is_ok (f a)) l.
Proof.
  induction l as [|a l IH]; simpl; [reflexivity|].
  destruct (f a); simpl; [|reflexivity].
  rewrite <- IH. now destruct (mapM f l).
Qed.

Lemma mapM_Ok_map {A B : Type} (f : A -> result B) (l : list A) (bs : list B) :
  mapM f l = Ok bs -> map f l = map Ok bs.
Proof.
  revert bs. induction l as [|a l IH]; simpl; intros bs Hm.
  - now inversion Hm.
  - destruct (f a) as [b|e]; simpl in Hm; [|discriminate].
    destruct (mapM f l) as [bs'|e]; simpl in Hm; [|discriminate].
    inversion Hm; subst. simpl. now rewrite (IH bs' eq_refl).
Qed.

Lemma mapM_length {A B : Type} (f : A -> result B) (l : list A) (bs : list B) :
  mapM f l = Ok bs -> List.length bs = List.length l.
Proof.
  intros Hm. apply mapM_Ok_map in Hm.
  rewrite <- (length_map Ok bs), <- Hm. apply length_map.
Qed.

Lemma map_combine_fst {A B C : Type} (f : A -> C) (l1 : list A) (l2 : list B) :
  List.length l1 = List.length l2 ->
  map (fun p => f (fst p)) (combine l1 l2) = map f l1.
Proof.
  revert l2. induction l1 as [|a l1 IH]; intros [|b l2] Hl; simpl in *;
    try discriminate; [reflexivity|].
  f_equal. apply IH. lia.
Qed.

Lemma map_combine_snd {A B C : Type} (f : B -> C) (l1 : list A) (l2 : list B) :
  List.length l1 = List.length l2 ->
  map (fun p => f (snd p)) (combine l1 l2) = map f l2.
Proof.
  revert l2. induction l1 as [|a l1 IH]; intros [|b l2] Hl; simpl in *;
    try discriminate; [reflexivity|].
  f_equal. apply IH. lia.
Qed.

(** The unpacking [x, y = key.split(".")] succeeds exactly on the keys
    with one dot. *)
Lemma split_key_ok_iff (key : string) :
  is_ok (split_key key) = true <-> count_char "." key = 1%nat.
Proof.
  unfold split_key.
  pose proof (split_length "." key) as Hl.
  destruct (split "." key) as [|x [|y [|z t]]]; simpl in *;
    split; intros H; try discriminate; try lia; reflexivity.
Qed.

Lemma split_key_too_many (key : string) :
  (2 <= count_char "." key)%nat ->
  split_key key = Raise (ValueError "too many values to unpack (expected 2)").
Proof.
  unfold split_key. intros H.
  pose proof (split_length "." key) as Hl.
  destruct (split "." key) as [|x [|y [|z t]]]; simpl in *; try lia.
  reflexivity.
Qed.

(** A key with one dot: what is before it gives the change, what is after
    it the group. *)
Lemma split_key_one_dot (x y : string) :
  contains_char "." x = false -> contains_char "." y = false ->
  split_key (x ++ String "." y)
  = Ok (if contains_char ":" x then hd EmptyString (split ":" x) else "baseline",
        rstrip "]" y).
Proof.
  intros Hx Hy. unfold split_key.
  rewrite (split_first "." x y Hx), (split_no_sep "." y Hy). reflexivity.
Qed.

Lemma level_name_split (g l : string) :
  level_name g l = (g ++ "[T") ++ String "." (l ++ "]").
Proof. unfold level_name. now rewrite string_app_assoc. Qed.

Lemma split_key_level (g l : string) :
  contains_char "." g = false -> contains_char ":" g = false ->
  contains_char "." l = false ->
  split_key (level_name g l) = Ok ("baseline", rstrip "]" l).
Proof.
  intros Hg Hc Hl. rewrite level_name_split, split_key_one_dot.
  - rewrite contains_char_app, Hc. simpl.
    now rewrite (rstrip_snoc "]" l).
  - rewrite contains_char_app, Hg. reflexivity.
  - rewrite contains_char_app, Hl. reflexivity.
Qed.

Lemma split_key_cross (t g l : string) :
  contains_char "." t = false -> contains_char ":" t = false ->
  contains_char "." g = false -> contains_char "." l = false ->
  split_key (cross_name t g l) = Ok (t, rstrip "]" l).
Proof.
  intros Ht Htc Hg Hl. unfold cross_name.
  rewrite level_name_split, <- !string_app_assoc, split_key_one_dot.
  - rewrite !contains_char_app. simpl.
    replace (contains_char ":" t || true || contains_char ":" g || false)
      with true by (now rewrite orb_true_r).
    rewrite !string_app_assoc.
    change (":" ++ g ++ "[T") with (String ":" (g ++ "[T")).
    rewrite (split_first ":" t _ Htc). simpl.
    now rewrite (rstrip_snoc "]" l).
  - rewrite !contains_char_app, Ht, Hg. reflexivity.
  - rewrite contains_char_app, Hl. reflexivity.
Qed.

(** What [forest_rows] keeps and how it indexes it. *)
Lemma forest_rows_Ok {num : Type} (name : cell) (df : list (CIRow num))
  (es : list (ForestEntry num)) :
  forest_rows name df = Ok es ->
  let kept := filter (fun r => search_T_any (ci_name r)) df in
  map (fun e => Ok (change e, group e)) es
  = map (fun r => split_key (ci_name r)) kept
  /\ map (@fe_num num) es = map (@ci_num num) kept
  /\ map (@fe_pcnt num) es = map (@pcnt num) kept
  /\ Forall (fun e => category e = name) es.
Proof.
  intros H kept. unfold forest_rows in H. fold kept in H.
  destruct (mapM split_key (map (@ci_name num) kept)) as [ix|e] eqn:Hm;
    simpl in H; [|discriminate].
  inversion H; subst es; clear H.
  pose proof (mapM_length _ _ _ Hm) as Hlen. rewrite length_map in Hlen.
  apply mapM_Ok_map in Hm. rewrite map_map in Hm.
  rewrite !map_map. simpl. repeat split.
  - rewrite Hm.
    rewrite (map_combine_snd (fun i => Ok (fst i, snd i)) kept ix)
      by (symmetry; exact Hlen).
    apply map_ext. now intros [a b].
  - apply (map_combine_fst (@ci_num num) kept ix). now symmetry.
  - apply (map_combine_fst (@pcnt num) kept ix). now symmetry.
  - apply Forall_forall. intros e He. apply in_map_iff in He.
    destruct He as [ri [<- _]]. reflexivity.
Qed.

Lemma forest_rows_is_ok {num : Type} (name : cell) (df : list (CIRow num)) :
  is_ok (forest_rows name df)
  = forallb (fun r => is_ok (split_key (ci_name r)))
            (filter (fun r => search_T_any (ci_name r)) df).
Proof.
  unfold forest_rows.
  set (kept := filter (fun r => search_T_any (ci_name r)) df).
  transitivity (is_ok (mapM split_key (map (@ci_name num) kept))).
  - now destruct (mapM split_key _).
  - rewrite mapM_is_ok. induction kept as [|r kept IH]; simpl; [reflexivity|].
    now rewrite IH.
Qed.

End KeyDecomposition.

Section ForestIndex.
Import PyStr PyStrFacts.

Local Open Scope string_scope.

Lemma plain_names_not_kept (k : string) :
  In k plain_names -> search_T_any k = false.
Proof.
  unfold plain_names. simpl.
  intros H; repeat (destruct H as [<-|H]; [reflexivity|]); contradiction.
Qed.

Lemma treatment_names_kept (g l k : string) :
  In k (treatment_names g l) -> search_T_any k = true.
Proof.
  unfold treatment_names. simpl.
  intros [<-|H]; [apply search_T_any_level|].
  repeat (destruct H as [<-|H]; [apply search_T_any_cross|]); contradiction.
Qed.

(** The five rows of a level and their index pairs. *)
Lemma treatment_names_split (g l k : string) :
  contains_char "." g = false -> contains_char ":" g = false ->
  contains_char "." l = false ->
  In k (treatment_names g l) ->
  exists c, In c ("baseline" :: crossed_terms)
            /\ k = (if String.eqb c "baseline" then level_name g l
                    else cross_name c g l)
            /\ split_key k = Ok (c, rstrip "]" l).
Proof.
  intros Hg Hc Hl. unfold treatment_names, crossed_terms. simpl.
  intros [<-|[<-|[<-|[<-|[<-|[]]]]]].
  - exists "baseline". repeat split; [tauto|now apply split_key_level].
  - exists "step". repeat split; [tauto|now apply split_key_cross].
  - exists "slope". repeat split; [tauto|now apply split_key_cross].
  - exists "step2". repeat split; [tauto|now apply split_key_cross].
  - exists "slope2". repeat split; [tauto|now apply split_key_cross].
Qed.

Lemma get_ci_df_names {num : Type} {ops : FloatOps num} {text : FloatText num}
  (model : FittedModel num) (round_to : Z) :
  map (@ci_name num) (get_ci_df model round_to)
  = map (@c_name num) (coefficients model).
Proof.
  unfold get_ci_df. rewrite !map_map. apply map_ext.
  now intros [n c l u].
Qed.

End ForestIndex.

Section ForestRows.
Import PyStr PyStrFacts.

Lemma Forall2_impl_In {A B : Type} (R Q : A -> B -> Prop) (l1 : list A)
  (l2 : list B) :
  Forall2 R l1 l2 ->
  (forall a b, In a l1 -> R a b -> Q a b) ->
  Forall2 Q l1 l2.
Proof.
  induction 1 as [|a b l1 l2 Hab Hrest IH]; intros Himp; constructor.
  - apply Himp; [now left | exact Hab].
  - apply IH. intros a' b' Ha'. apply Himp. now right.
Qed.

(** Row by row: the entry made of a kept row carries the numbers and the
    interval string of that row, and is indexed by the two parts of the key
    of that row. *)
Lemma forest_rows_rows {num : Type} (name : cell) (df : list (CIRow num))
  (es : list (ForestEntry num)) :
  forest_rows name df = Ok es ->
  Forall2 (fun r e =>
             split_key (ci_name r) = Ok (change e, group e)
             /\ fe_num e = ci_num r /\ fe_pcnt e = pcnt r
             /\ category e = name)
          (filter (fun r => search_T_any (ci_name r)) df) es.
Proof.
  unfold forest_rows.
  set (kept := filter (fun r => search_T_any (ci_name r)) df).
  destruct (mapM split_key (map (@ci_name num) kept)) as [ix|e] eqn:Hm;
    cbn [bind]; [|discriminate].
  intros Hes. injection Hes as <-.
  revert ix Hm. induction kept as [|r kept IH]; intros ix Hm.
  - simpl in Hm. injection Hm as <-. constructor.
  - simpl in Hm.
    destruct (split_key (ci_name r)) as [[x y]|e] eqn:Hr; simpl in Hm;
      [|discriminate].
    destruct (mapM split_key (map (@ci_name num) kept)) as [ix'|e] eqn:Hm';
      simpl in Hm; [|discriminate].
    injection Hm as <-. simpl. constructor.
    + rewrite Hr. repeat split.
    + now apply IH.
Qed.

End ForestRows.

Section ForestClaims.
Import PyStr PyStrFacts.

Local Open Scope string_scope.

(** C3 (amended).  Of a frame whose rows are named by the plain
    regressors and by the treatment-coded columns of the levels [ls] of the
    grouping column [g], [pcnt_change] keeps the rows whose name holds a
    ['T'] followed by one more character: the main-effect row of every
    level as well as its four cross-term rows, and none of the plain rows.
    The kept rows give the entries, one each and in their order: the entry
    of a row carries the numbers and the interval string of that row, and
    is indexed by the key of that row cut at its dot; the change is what
    stands before the first colon of the first part, ["baseline"] when
    there is no colon, so it is one of baseline, step, slope, step2,
    slope2; the group is the level with every closing bracket at its end
    removed. *)
Theorem pcnt_change_keeps_treatment_coded_rows :
  forall (num : Type) (name : cell) (df : list (CIRow num))
         (g : string) (ls : list string),
    contains_char "." g = false ->
    contains_char ":" g = false ->
    Forall (fun l => contains_char "." l = false) ls ->
    Forall (fun r => In (ci_name r) plain_names
                     \/ exists l, In l ls /\ In (ci_name r) (treatment_names g l))
           df ->
    exists es : list (ForestEntry num),
      forest_rows name df = Ok es
      /\ Forall2 (fun r e =>
                    fe_num e = ci_num r /\ fe_pcnt e = pcnt r
                    /\ category e = name
                    /\ exists l c,
                        In l ls /\ In c ("baseline" :: crossed_terms)
                        /\ ci_name r = (if String.eqb c "baseline"
                                        then level_name g l
                                        else cross_name c g l)
                        /\ change e = c
                        /\ group e = rstrip "]" l)
                 (filter (fun r => negb (existsb (String.eqb (ci_name r))
                                                 plain_names)) df)
                 es.
Proof.
  intros num name df g ls Hg Hc Hls Hdf.
  rewrite Forall_forall in Hls, Hdf.
  assert (Hok : is_ok (forest_rows name df) = true).
  { rewrite forest_rows_is_ok. apply forallb_forall.
    intros r Hr. apply filter_In in Hr. destruct Hr as [Hr Hk].
    destruct (Hdf r Hr) as [Hp|[l [Hl Hn]]].
    - rewrite (plain_names_not_kept _ Hp) in Hk. discriminate.
    - destruct (treatment_names_split g l _ Hg Hc (Hls l Hl) Hn)
        as [c [_ [_ Hs]]].
      now rewrite Hs. }
  destruct (forest_rows name df) as [es|e] eqn:Hf; [|discriminate].
  exists es. split; [reflexivity|].
  pose proof (forest_rows_rows name df es Hf) as Hrows.
  assert (Hfilter :
    filter (fun r => negb (existsb (String.eqb (ci_name r)) plain_names)) df
    = filter (fun r => search_T_any (ci_name r)) df).
  { apply filter_ext_in. intros r Hr.
    destruct (Hdf r Hr) as [Hp|[l [Hl Hn]]].
    + rewrite (plain_names_not_kept _ Hp).
      apply negb_false_iff, existsb_exists.
      exists (ci_name r). split; [exact Hp | apply String.eqb_refl].
    + rewrite (treatment_names_kept g l _ Hn).
      apply negb_true_iff.
      destruct (existsb (String.eqb (ci_name r)) plain_names) eqn:E;
        [|reflexivity].
      apply existsb_exists in E. destruct E as [k [Hk Heq]].
      apply String.eqb_eq in Heq. subst k.
      pose proof (plain_names_not_kept _ Hk).
      pose proof (treatment_names_kept g l _ Hn). congruence. }
  rewrite Hfilter.
  apply (Forall2_impl_In _ _ _ _ Hrows).
  intros r e Hr [Hs [Hnum [Hpc Hcat]]].
  apply filter_In in Hr. destruct Hr as [Hr Hk].
  split; [exact Hnum|]. split; [exact Hpc|]. split; [exact Hcat|].
  destruct (Hdf r Hr) as [Hp|[l [Hl Hn]]].
  - rewrite (plain_names_not_kept _ Hp) in Hk. discriminate.
  - destruct (treatment_names_split g l _ Hg Hc (Hls l Hl) Hn)
      as [c [Hcin [Hname Hsplit]]].
    rewrite Hsplit in Hs. injection Hs as Hch Hgr.
    exists l, c. repeat split; try assumption; now symmetry.
Qed.

Lemma pcnt_change_keeps_treatment_coded_rows_witness :
  exists es : list (ForestEntry Z),
    forest_rows (CStr "sex") forest_example = Ok es
    /\ Forall2 (fun r e =>
                  fe_num e = ci_num r /\ fe_pcnt e = pcnt r
                  /\ category e = CStr "sex"
                  /\ exists l c,
                      In l ["F"] /\ In c ("baseline" :: crossed_terms)
                      /\ ci_name r = (if String.eqb c "baseline"
                                      then level_name "group_0" l
                                      else cross_name c "group_0" l)
                      /\ change e = c
                      /\ group e = rstrip "]" l)
               (filter (fun r => negb (existsb (String.eqb (ci_name r))
                                               plain_names)) forest_example)
               es.
Proof.
  apply (pcnt_change_keeps_treatment_coded_rows Z (CStr "sex") forest_example
           "group_0" ["F"]).
  - reflexivity.
  - reflexivity.
  - repeat constructor.
  - unfold forest_example. simpl.
    apply Forall_cons; [left; simpl; tauto|].
    apply Forall_cons; [right; exists "F"; simpl; tauto|].
    apply Forall_cons; [right; exists "F"; simpl; tauto|].
    apply Forall_nil.
Defined.

(** C3, as stated, fails: the main-effect row of a level is kept although
    its name has no cross term, and it is the row of the baseline
    change. *)
Lemma pcnt_change_keeps_row_without_cross_term :
  exists e : ForestEntry Z,
    forest_rows (CStr "sex")
      [{| ci_name := "group_0[T.F]";
          ci_num := {| coef := 0; lci := 0; uci := 0; error := 0 |};
          pcnt := "" |}] = Ok [e]
    /\ contains_char ":" "group_0[T.F]" = false
    /\ change e = "baseline" /\ group e = "F".
Proof.
  eexists. repeat split.
Qed.

(** C10.  The unpacking of the split key succeeds exactly on the keys
    with one dot.  So a kept row of a level whose label holds a dot (under
    whatever grouping column or cross term [g]) has a key of more than two
    parts: the unpacking raises [ValueError], and no frame with such a row
    gets through [pcnt_change]'s loop. *)
Theorem split_key_needs_exactly_one_dot :
  forall (num : Type) (name : cell) (df : list (CIRow num)) (r : CIRow num)
         (g l : string),
    In r df ->
    ci_name r = level_name g l ->
    contains_char "." l = true ->
    (forall key, is_ok (split_key key) = true <-> count_char "." key = 1%nat)
    /\ search_T_any (ci_name r) = true
    /\ split_key (ci_name r)
       = Raise (ValueError "too many values to unpack (expected 2)")
    /\ is_ok (forest_rows name df) = false.
Proof.
  intros num name df r g l Hr Hn Hl.
  assert (Hk : search_T_any (ci_name r) = true)
    by (rewrite Hn; apply search_T_any_level).
  assert (Hs : split_key (ci_name r)
               = Raise (ValueError "too many values to unpack (expected 2)")).
  { apply split_key_too_many. rewrite Hn, level_name_split.
    rewrite count_char_app. simpl. rewrite !count_char_app.
    pose proof (contains_char_count "." l Hl). lia. }
  repeat split; try assumption; try apply split_key_ok_iff.
  rewrite forest_rows_is_ok.
  destruct (forallb _ _) eqn:E; [|reflexivity].
  rewrite forallb_forall in E.
  specialize (E r). rewrite Hs in E. simpl in E. symmetry. apply E.
  apply filter_In. now split.
Qed.

Lemma split_key_needs_exactly_one_dot_witness :
  (forall key, is_ok (split_key key) = true <-> count_char "." key = 1%nat)
  /\ search_T_any "group_0[T.St. Ives]" = true
  /\ split_key "group_0[T.St. Ives]"
     = Raise (ValueError "too many values to unpack (expected 2)")
  /\ is_ok (forest_rows (CStr "town")
              [{| ci_name := "group_0[T.St. Ives]";
                  ci_num := {| coef := 0; lci := 0; uci := 0; error := 0 |};
                  pcnt := "" |}]) = false.
Proof.
  apply (split_key_needs_exactly_one_dot Z (CStr "town")
           [{| ci_name := "group_0[T.St. Ives]";
               ci_num := {| coef := 0; lci := 0; uci := 0; error := 0 |};
               pcnt := "" |}]
           {| ci_name := "group_0[T.St. Ives]";
              ci_num := {| coef := 0; lci := 0; uci := 0; error := 0 |};
              pcnt := "" |}
           "group_0" "St. Ives").
  - simpl. left. reflexivity.
  - reflexivity.
  - reflexivity.
Defined.

End ForestClaims.

(** ** The derived regressors *)

Section ItsVariables.

Lemma ts_eqb_eq (a b : Timestamp) : ts_eqb a b = true <-> a = b.
Proof.
  unfold ts_eqb. destruct a as [ya ma da], b as [yb mb db]. simpl.
  rewrite !andb_true_iff, !Z.eqb_eq. split.
  - intros [[-> ->] ->]. reflexivity.
  - intros E. inversion E. auto.
Qed.

Lemma fold_min_le (l : list Z) (x : Z) :
  fold_left Z.min l x <= x /\ Forall (fun y => fold_left Z.min l x <= y) l.
Proof.
  revert x. induction l as [|a l IH]; intros x; simpl.
  - split; [lia | constructor].
  - destruct (IH (Z.min x a)) as [H1 H2]. split; [lia|].
    constructor; [lia | exact H2].
Qed.

Lemma fold_min_in (l : list Z) (x : Z) :
  fold_left Z.min l x = x \/ In (fold_left Z.min l x) l.
Proof.
  revert x. induction l as [|a l IH]; intros x; simpl; [now left|].
  destruct (IH (Z.min x a)) as [H|H]; [|now right; right].
  rewrite H. destruct (Z.min_spec x a) as [[_ ->]|[_ ->]]; auto.
Qed.

(** [min] of a sequence that is not empty: one of its elements, below
    all of them. *)
Lemma py_min_spec (l : list Z) (m : Z) :
  py_min l = Ok m -> In m l /\ Forall (fun y => m <= y) l.
Proof.
  destruct l as [|x l]; simpl; [discriminate|].
  intros H. injection H as <-.
  destruct (fold_min_le l x) as [H1 H2].
  destruct (fold_min_in l x) as [H|H]; split; auto.
Qed.

Lemma py_min_nonempty (l : list Z) :
  l <> [] -> exists m, py_min l = Ok m.
Proof. destruct l as [|x l]; [congruence | intros _; now eexists]. Qed.

(** The cutoff month: the month before the month of the cutoff date,
    whichever row of that date is the first. *)
Lemma cutmonth_found (min_year : Z) (df : list (MeasureRow (option Q)))
  (cutdate : Timestamp) (r : MeasureRow (option Q)) :
  In r df -> date r = cutdate ->
  cutmonth min_year df cutdate = Ok (time_of min_year cutdate - 1).
Proof.
  intros Hr Hd. unfold cutmonth.
  destruct (filter (fun r0 => ts_eqb (date r0) cutdate) df) as [|k ks] eqn:E.
  - assert (Hin : In r (filter (fun r0 => ts_eqb (date r0) cutdate) df))
      by (apply filter_In; split; [exact Hr | now apply ts_eqb_eq]).
    rewrite E in Hin. contradiction.
  - assert (Hk : In k (filter (fun r0 => ts_eqb (date r0) cutdate) df))
      by (rewrite E; now left).
    apply filter_In in Hk. destruct Hk as [_ Hk].
    apply ts_eqb_eq in Hk. now rewrite Hk.
Qed.

Lemma cutmonth_Ok (min_year : Z) (df : list (MeasureRow (option Q)))
  (cutdate : Timestamp) (c : Z) :
  cutmonth min_year df cutdate = Ok c ->
  c = time_of min_year cutdate - 1
  /\ exists r, In r df /\ date r = cutdate.
Proof.
  unfold cutmonth.
  destruct (filter (fun r0 => ts_eqb (date r0) cutdate) df) as [|k ks] eqn:E;
    [discriminate|].
  intros H. injection H as <-.
  assert (Hk : In k (filter (fun r0 => ts_eqb (date r0) cutdate) df))
    by (rewrite E; now left).
  apply filter_In in Hk. destruct Hk as [Hin Hk].
  apply ts_eqb_eq in Hk. split; [now rewrite Hk | now exists k].
Qed.

(** What [get_its_variables] returns when it returns. *)
Lemma get_its_variables_Ok (df : list (MeasureRow (option Q)))
  (cutdate1 cutdate2 : Timestamp) (out : list ItsRow) :
  get_its_variables df cutdate1 cutdate2 = Ok out ->
  exists min_year,
    py_min (map (fun r => year (date r)) df) = Ok min_year
    /\ (exists r, In r df /\ date r = cutdate1)
    /\ (exists r, In r df /\ date r = cutdate2)
    /\ out = map (its_row min_year (time_of min_year cutdate1 - 1)
                          (time_of min_year cutdate2 - 1)) df.
Proof.
  unfold get_its_variables.
  destruct (py_min _) as [my|e]; simpl; [|discriminate].
  destruct (cutmonth my df cutdate1) as [m1|e] eqn:E1; simpl; [|discriminate].
  destruct (cutmonth my df cutdate2) as [m2|e] eqn:E2; simpl; [|discriminate].
  intros H. injection H as <-.
  apply cutmonth_Ok in E1, E2.
  destruct E1 as [-> H1], E2 as [-> H2].
  exists my. repeat split; auto.
Qed.

(** It returns as soon as both cutoff dates are dates of the table. *)
Lemma get_its_variables_total (df : list (MeasureRow (option Q)))
  (cutdate1 cutdate2 : Timestamp) (r1 r2 : MeasureRow (option Q)) :
  In r1 df -> date r1 = cutdate1 -> In r2 df -> date r2 = cutdate2 ->
  exists out, get_its_variables df cutdate1 cutdate2 = Ok out.
Proof.
  intros H1 D1 H2 D2. unfold get_its_variables.
  destruct (py_min_nonempty (map (fun r => year (date r)) df)) as [my ->].
  { destruct df; [contradiction | discriminate]. }
  simpl.
  rewrite (cutmonth_found my df cutdate1 r1 H1 D1). simpl.
  rewrite (cutmonth_found my df cutdate2 r2 H2 D2). simpl.
  now eexists.
Qed.

End ItsVariables.

Section ItsClaims.

Lemma in_its_rows (my m1 m2 : Z) (df : list (MeasureRow (option Q))) (x : ItsRow) :
  In x (map (its_row my m1 m2) df) ->
  exists r, In r df /\ x = its_row my m1 m2 r.
Proof.
  intros H. apply in_map_iff in H. destruct H as [r [<- Hr]]. now exists r.
Qed.

(** C1.  When both cutoff dates are dates of the table,
    [get_its_variables] returns one row per input row, and with [c1] the
    [time] of a row of the first cutoff date minus one and [c2] the same
    for the second: [step] is 1 if [time > c1] else 0, [slope] is
    [max (time - c1) 0], [step2] and [slope2] the same with [c2], [mar20]
    is 1 exactly when [time = c1 + 1] and [april20] exactly when
    [time = c1 + 2], 0 otherwise. *)
Theorem get_its_variables_regressors :
  forall (df : list (MeasureRow (option Q))) (cutdate1 cutdate2 : Timestamp)
         (r1 r2 : MeasureRow (option Q)),
    In r1 df -> date r1 = cutdate1 ->
    In r2 df -> date r2 = cutdate2 ->
    exists out,
      get_its_variables df cutdate1 cutdate2 = Ok out
      /\ map obs out = df
      /\ forall k1 k2,
          In k1 out -> date (obs k1) = cutdate1 ->
          In k2 out -> date (obs k2) = cutdate2 ->
          let c1 := time k1 - 1 in
          let c2 := time k2 - 1 in
          Forall (fun x =>
                    step x = (if time x >? c1 then 1 else 0)
                    /\ slope x = Z.max (time x - c1) 0
                    /\ step2 x = (if time x >? c2 then 1 else 0)
                    /\ slope2 x = Z.max (time x - c2) 0
                    /\ mar20 x = (if time x =? c1 + 1 then 1 else 0)
                    /\ (mar20 x = 1 <-> time x = c1 + 1)
                    /\ april20 x = (if time x =? c1 + 2 then 1 else 0)
                    /\ (april20 x = 1 <-> time x = c1 + 2)) out.
Proof.
  intros df cutdate1 cutdate2 r1 r2 H1 D1 H2 D2.
  destruct (get_its_variables_total df cutdate1 cutdate2 r1 r2 H1 D1 H2 D2)
    as [out Hout].
  exists out. split; [exact Hout|].
  destruct (get_its_variables_Ok _ _ _ _ Hout) as [my [_ [_ [_ ->]]]].
  split.
  { rewrite map_map. simpl. apply map_id. }
  intros k1 k2 K1 E1 K2 E2 c1 c2.
  apply in_its_rows in K1, K2.
  destruct K1 as [a [_ ->]], K2 as [b [_ ->]]. simpl in E1, E2.
  assert (Hc1 : c1 = time_of my cutdate1 - 1) by (subst c1; simpl; now rewrite E1).
  assert (Hc2 : c2 = time_of my cutdate2 - 1) by (subst c2; simpl; now rewrite E2).
  rewrite Hc1, Hc2. clear c1 c2 Hc1 Hc2.
  apply Forall_forall. intros x Hx.
  apply in_its_rows in Hx. destruct Hx as [r [_ ->]]. simpl.
  repeat split; try reflexivity.
  - destruct (Z.eqb_spec (time_of my (date r)) (time_of my cutdate1 - 1 + 1));
      [trivial | discriminate].
  - intros ->. now rewrite Z.eqb_refl.
  - destruct (Z.eqb_spec (time_of my (date r)) (time_of my cutdate1 - 1 + 2));
      [trivial | discriminate].
  - intros ->. now rewrite Z.eqb_refl.
Qed.

Lemma by_one_time_of (my : Z) (dates : list Timestamp) :
  gap_free dates = true -> by_one (map (time_of my) dates) = true.
Proof.
  induction dates as [|a [|b l] IH]; simpl; try reflexivity.
  intros H. apply andb_true_iff in H. destruct H as [Hn Hg].
  apply andb_true_iff. split; [|now apply IH].
  unfold next_month in Hn. unfold time_of. apply Z.eqb_eq.
  rewrite orb_true_iff, !andb_true_iff, !Z.eqb_eq, Z.ltb_lt in Hn.
  destruct Hn as [[[_ ->] ->]|[[-> ->] ->]]; lia.
Qed.

(** C7.  [time] is twelve times the years since the first year of the
    table plus the month of the row, so that a January of that first year
    has [time] 1; and over a monthly series without a gap [time] goes up by
    one from each row to the next. *)
Theorem get_its_variables_time :
  forall (df : list (MeasureRow (option Q))) (cutdate1 cutdate2 : Timestamp)
         (r1 r2 : MeasureRow (option Q)),
    In r1 df -> date r1 = cutdate1 ->
    In r2 df -> date r2 = cutdate2 ->
    exists out min_year,
      get_its_variables df cutdate1 cutdate2 = Ok out
      /\ In min_year (map (fun r => year (date r)) df)
      /\ Forall (fun r => min_year <= year (date r)) df
      /\ map time out
         = map (fun r => 12 * (year (date r) - min_year) + month (date r)) df
      /\ Forall (fun x => year (date (obs x)) = min_year ->
                          month (date (obs x)) = 1 -> time x = 1) out
      /\ (gap_free (map date df) = true -> by_one (map time out) = true).
Proof.
  intros df cutdate1 cutdate2 r1 r2 H1 D1 H2 D2.
  destruct (get_its_variables_total df cutdate1 cutdate2 r1 r2 H1 D1 H2 D2)
    as [out Hout].
  destruct (get_its_variables_Ok _ _ _ _ Hout) as [my [Hmin [_ [_ ->]]]].
  exists (map (its_row my (time_of my cutdate1 - 1) (time_of my cutdate2 - 1)) df),
    my.
  apply py_min_spec in Hmin. destruct Hmin as [Hin Hle].
  split; [exact Hout|]. split; [exact Hin|]. split.
  { rewrite Forall_forall in *. intros r Hr. apply Hle.
    apply (in_map (fun r => year (date r)) df r Hr). }
  rewrite map_map. simpl. split; [reflexivity|]. split.
  - apply Forall_forall. intros x Hx.
    apply in_its_rows in Hx. destruct Hx as [r [_ ->]]. simpl.
    unfold time_of. intros -> ->. lia.
  - intros Hg.
    rewrite <- (map_map (@date (option Q)) (time_of my)).
    now apply by_one_time_of.
Qed.

End ItsClaims.

Section ItsWitnesses.

Lemma monthly_example_cutoffs :
  In (month_row 2020 3) monthly_example
  /\ date (month_row 2020 3) = STEP_TIME_1
  /\ In (month_row 2021 3) monthly_example
  /\ date (month_row 2021 3) = STEP_TIME_2.
Proof.
  unfold monthly_example. simpl. repeat split; tauto.
Qed.

Lemma get_its_variables_regressors_witness :
  exists out,
    get_its_variables monthly_example STEP_TIME_1 STEP_TIME_2 = Ok out
    /\ map obs out = monthly_example
    /\ forall k1 k2,
        In k1 out -> date (obs k1) = STEP_TIME_1 ->
        In k2 out -> date (obs k2) = STEP_TIME_2 ->
        let c1 := time k1 - 1 in
        let c2 := time k2 - 1 in
        Forall (fun x =>
                  step x = (if time x >? c1 then 1 else 0)
                  /\ slope x = Z.max (time x - c1) 0
                  /\ step2 x = (if time x >? c2 then 1 else 0)
                  /\ slope2 x = Z.max (time x - c2) 0
                  /\ mar20 x = (if time x =? c1 + 1 then 1 else 0)
                  /\ (mar20 x = 1 <-> time x = c1 + 1)
                  /\ april20 x = (if time x =? c1 + 2 then 1 else 0)
                  /\ (april20 x = 1 <-> time x = c1 + 2)) out.
Proof.
  apply (get_its_variables_regressors monthly_example STEP_TIME_1 STEP_TIME_2
           (month_row 2020 3) (month_row 2021 3)).
  - unfold monthly_example. simpl. tauto.
  - reflexivity.
  - unfold monthly_example. simpl. tauto.
  - reflexivity.
Defined.

Lemma get_its_variables_time_witness :
  exists out min_year,
    get_its_variables monthly_example STEP_TIME_1 STEP_TIME_2 = Ok out
    /\ In min_year (map (fun r => year (date r)) monthly_example)
    /\ Forall (fun r => min_year <= year (date r)) monthly_example
    /\ map time out
       = map (fun r => 12 * (year (date r) - min_year) + month (date r))
             monthly_example
    /\ Forall (fun x => year (date (obs x)) = min_year ->
                        month (date (obs x)) = 1 -> time x = 1) out
    /\ (gap_free (map date monthly_example) = true ->
        by_one (map time out) = true).
Proof.
  apply (get_its_variables_time monthly_example STEP_TIME_1 STEP_TIME_2
           (month_row 2020 3) (month_row 2021 3)).
  - unfold monthly_example. simpl. tauto.
  - reflexivity.
  - unfold monthly_example. simpl. tauto.
  - reflexivity.
Defined.

(** On the example: the times are 2 to 15, the first cutoff month is 2,
    the second 14. *)
Example monthly_example_regressors :
  option_map (map (fun x => (time x, step x, slope x, mar20 x, april20 x,
                             step2 x, slope2 x)))
    (match get_its_variables monthly_example STEP_TIME_1 STEP_TIME_2 with
     | Ok out => Some out
     | Raise _ => None
     end)
  = Some [(2, 0, 0, 0, 0, 0, 0); (3, 1, 1, 1, 0, 0, 0); (4, 1, 2, 0, 1, 0, 0);
          (5, 1, 3, 0, 0, 0, 0); (6, 1, 4, 0, 0, 0, 0); (7, 1, 5, 0, 0, 0, 0);
          (8, 1, 6, 0, 0, 0, 0); (9, 1, 7, 0, 0, 0, 0); (10, 1, 8, 0, 0, 0, 0);
          (11, 1, 9, 0, 0, 0, 0); (12, 1, 10, 0, 0, 0, 0);
          (13, 1, 11, 0, 0, 0, 0); (14, 1, 12, 0, 0, 0, 0);
          (15, 1, 13, 0, 0, 1, 1)].
Proof. reflexivity. Qed.

End ItsWitnesses.

(** ** Counterfactual frames *)

Section Counterfactual.

Context {H num Summary : Type}.
Variable get_prediction : FittedModel num -> ModelRow H -> Summary.
Variable predict : FittedModel num -> ModelRow H -> num.

(** Months are ordered as dates are, up to the day of the month. *)
Lemma time_of_lt (my : Z) (a b : Timestamp) :
  valid_date a = true -> 1 <= month b -> day b = 1 ->
  ts_ltb a b = true -> time_of my a < time_of my b.
Proof.
  unfold valid_date, ts_ltb, time_of.
  rewrite !andb_true_iff, !orb_true_iff, !andb_true_iff, !orb_true_iff,
    !andb_true_iff, !Z.leb_le, !Z.ltb_lt, !Z.eqb_eq.
  intros [[Hm1 Hm2] Hd] Hb Hdb Hlt. lia.
Qed.

Lemma no_intervention_id (r : ModelRow H) :
  step (its r) = 0 -> slope (its r) = 0 -> step2 (its r) = 0 ->
  slope2 (its r) = 0 -> mar20 (its r) = 0 -> april20 (its r) = 0 ->
  no_intervention r = r.
Proof.
  destruct r as [[o ra t st sl st2 sl2 m a i] s c]. simpl.
  intros -> -> -> -> -> ->. reflexivity.
Qed.

Lemma no_recovery_id (r : ModelRow H) :
  step2 (its r) = 0 -> slope2 (its r) = 0 -> no_recovery r = r.
Proof.
  destruct r as [[o ra t st sl st2 sl2 m a i] s c]. simpl.
  intros -> ->. reflexivity.
Qed.

(** The regressors of a row before a cutoff month are zero. *)
Lemma its_row_before (my m1 m2 : Z) (r : MeasureRow (option Q)) :
  let x := its_row my m1 m2 r in
  (time_of my (date r) <= m1 ->
   step x = 0 /\ slope x = 0 /\ mar20 x = 0 /\ april20 x = 0)
  /\ (time_of my (date r) <= m2 -> step2 x = 0 /\ slope2 x = 0).
Proof.
  simpl. split; intros Hle.
  - destruct (Z.gtb_spec (time_of my (date r)) m1); [lia|].
    destruct (Z.eqb_spec (time_of my (date r)) (m1 + 1)); [lia|].
    destruct (Z.eqb_spec (time_of my (date r)) (m1 + 2)); [lia|].
    repeat split; lia.
  - destruct (Z.gtb_spec (time_of my (date r)) m2); [lia|].
    split; lia.
Qed.


End Counterfactual.


(** ** The fit and its convergence *)

Section Convergence.

Context {H num : Type}.
Variable poisson_fit :
  string -> list (ModelRow H) -> option (list cell) -> cov_type -> Z ->
  result (FittedModel num).

(** C5.  [get_regression] fits once, with at most 200 iterations.  A
    model it returns is that fit and has converged; a fit that has not
    converged is not returned: after its summary is printed,
    [ConvergenceWarning] is raised with the message
    ["Failed to converge"]; a fit that has converged is returned. *)
Theorem get_regression_never_unconverged :
  forall (df : list (ModelRow H)) (categories : option (list cell)) (lags : Z)
         (formula : string) (interaction_group : option string),
    let run :=
      get_regression poisson_fit df categories lags formula interaction_group in
    let fit :=
      poisson_fit formula df categories (cov_of df lags interaction_group) 200 in
    (forall model, snd run = Ok model ->
                   converged model = true /\ fit = Ok model)
    /\ (forall model, fit = Ok model -> converged model = false ->
                      run = ([summary model],
                             Raise (ConvergenceWarning "Failed to converge")))
    /\ (forall model, fit = Ok model -> converged model = true ->
                      run = ([summary model], Ok model)).
Proof.
  intros df categories lags formula interaction_group run fit.
  assert (Hrun : run = match fit with
                       | Raise e => ([], Raise e)
                       | Ok m => ([summary m],
                                  if negb (converged m)
                                  then Raise (ConvergenceWarning "Failed to converge")
                                  else Ok m)
                       end).
  { unfold run, fit, get_regression, cov_of.
    now destruct interaction_group. }
  rewrite Hrun. clear Hrun. repeat split.
  - destruct fit as [m|e]; simpl in *; [|discriminate].
    destruct (converged m) eqn:E; simpl in *; [|discriminate].
    injection H0 as <-. exact E.
  - destruct fit as [m|e]; simpl in *; [|discriminate].
    destruct (converged m) eqn:E; simpl in *; [|discriminate].
    now injection H0 as <-.
  - intros model -> Hc. now rewrite Hc.
  - intros model -> Hc. now rewrite Hc.
Qed.

End Convergence.

Lemma get_regression_never_unconverged_witness :
  get_regression (constant_fit (one_coef_model "time" 0 0 0 false))
    monthly_frame None 2 "numerator ~ time" None
  = (["Poisson Regression Results"],
     Raise (ConvergenceWarning "Failed to converge"))
  /\ get_regression (constant_fit (one_coef_model "time" 0 0 0 true))
       monthly_frame None 2 "numerator ~ time" None
     = (["Poisson Regression Results"], Ok (one_coef_model "time" 0 0 0 true))
  /\ converged (one_coef_model "time" 0 0 0 true) = true.
Proof.
  split; [|split].
  - apply (proj1 (proj2 (get_regression_never_unconverged
                           (constant_fit (one_coef_model "time" 0 0 0 false))
                           monthly_frame None 2 "numerator ~ time" None))
             (one_coef_model "time" 0 0 0 false) eq_refl eq_refl).
  - apply (proj2 (proj2 (get_regression_never_unconverged
                           (constant_fit (one_coef_model "time" 0 0 0 true))
                           monthly_frame None 2 "numerator ~ time" None))
             (one_coef_model "time" 0 0 0 true) eq_refl eq_refl).
  - apply (proj1 (get_regression_never_unconverged
                    (constant_fit (one_coef_model "time" 0 0 0 true))
                    monthly_frame None 2 "numerator ~ time" None)
             (one_coef_model "time" 0 0 0 true) eq_refl).
Defined.

(** ** Coercion of the numeric columns *)

Section Coercion.

Variable to_number : string -> option Q.

Lemma to_numeric_missing (c : cell) :
  non_numeric to_number c = true -> to_numeric to_number c = None.
Proof.
  destruct c as [q|s|b|]; simpl; try discriminate; try reflexivity.
  now destruct (to_number s).
Qed.

Lemma to_numeric_coerced (c : cell) :
  coerced to_number c (to_numeric to_number c).
Proof.
  split; [|split; [|split]].
  - intros Hn. rewrite (to_numeric_missing c Hn). split; [reflexivity|discriminate].
  - intros q ->. reflexivity.
  - intros s q -> Hs. exact Hs.
  - intros b ->. reflexivity.
Qed.

(** C9.  [coerce_numeric] keeps every row at its place.  In
    [numerator], [denominator] and [value] an entry that is not numeric
    (a string pandas reads no number in, such as the redaction
    placeholder, or a missing entry) becomes missing and not zero; a
    number stays the number it is, a string that spells a number becomes
    that number and no other, a boolean 1 or 0; the other columns are as
    they were. *)
Theorem coerce_numeric_missing_not_zero :
  forall table : list (MeasureRow cell),
    List.length (coerce_numeric to_number table) = List.length table
    /\ forall (i : nat) (r : MeasureRow cell),
        nth_error table i = Some r ->
        exists r',
          nth_error (coerce_numeric to_number table) i = Some r'
          /\ date r' = date r /\ name r' = name r
          /\ group_0 r' = group_0 r /\ category_0 r' = category_0 r
          /\ group_1 r' = group_1 r /\ category_1 r' = category_1 r
          /\ coerced to_number (numerator r) (numerator r')
          /\ coerced to_number (denominator r) (denominator r')
          /\ coerced to_number (value r) (value r').
Proof.
  intros table. unfold coerce_numeric. split; [apply length_map|].
  intros i r Hi. rewrite nth_error_map, Hi. simpl.
  eexists. split; [reflexivity|]. simpl.
  repeat (split; [reflexivity|]).
  split; [apply to_numeric_coerced|].
  split; apply to_numeric_coerced.
Qed.

End Coercion.

Lemma coerce_numeric_missing_not_zero_witness :
  non_numeric integer_to_number (value redacted_row) = true
  /\ integer_to_number "12" = Some 12%Q
  /\ exists r' r'',
      nth_error (coerce_numeric integer_to_number [redacted_row; twelve_row]) 0
      = Some r'
      /\ value r' = None /\ value r' <> Some 0%Q
      /\ denominator r' = Some 1000%Q
      /\ nth_error (coerce_numeric integer_to_number [redacted_row; twelve_row]) 1
         = Some r''
      /\ value r'' = Some 12%Q.
Proof.
  split; [reflexivity|]. split; [reflexivity|].
  destruct (proj2 (coerce_numeric_missing_not_zero integer_to_number
                     [redacted_row; twelve_row]) 0%nat redacted_row eq_refl)
    as [r' [Hn [_ [_ [_ [_ [_ [_ [_ [Hd Hv]]]]]]]]]].
  destruct (proj2 (coerce_numeric_missing_not_zero integer_to_number
                     [redacted_row; twelve_row]) 1%nat twelve_row eq_refl)
    as [r'' [Hn' [_ [_ [_ [_ [_ [_ [_ [_ Hv']]]]]]]]]].
  exists r', r''. split; [exact Hn|].
  destruct (proj1 Hv eq_refl) as [V1 V2].
  split; [exact V1|]. split; [exact V2|].
  split; [exact (proj1 (proj2 Hd) _ eq_refl)|].
  split; [exact Hn'|].
  exact (proj1 (proj2 (proj2 Hv')) "12"%string 12%Q eq_refl eq_refl).
Defined.

(** ** Percent changes and their intervals *)

Section ConfidenceIntervals.

Context {num : Type} {ops : FloatOps num} {text : FloatText num}.

Local Open Scope string_scope.

(** C2, on the code.  [get_ci_df] gives one row per coefficient, under
    its name.  [coef], [lci] and [uci] are [100 * (exp x - 1)] of the
    coefficient and of the two bounds of its interval, and [pcnt] is
    ["{coef}% ({lci}% to {uci}%)"] with the three transformed numbers
    rounded to [round_to] places, as the claim says.  [error] is not the
    difference of the coefficient and the lower bound on the log scale: the
    code runs the transform over the whole frame once [error] is in it, so
    what it returns is [100 * (exp (coef - lower) - 1)], whatever the
    float arithmetic is. *)
Theorem get_ci_df_percent_change :
  forall (model : FittedModel num) (round_to : Z),
    get_ci_df model round_to
    = map (fun c =>
             let co := pcnt_of (c_coef c) in
             let lo := pcnt_of (c_lower c) in
             let up := pcnt_of (c_upper c) in
             {| ci_name := c_name c;
                ci_num := {| coef := co; lci := lo; uci := up;
                             error := pcnt_of (fsub (c_coef c) (c_lower c)) |};
                pcnt := fstr (fround co round_to) ++ "% ("
                        ++ fstr (fround lo round_to) ++ "% to "
                        ++ fstr (fround up round_to) ++ "%)" |})
          (coefficients model)
    /\ forall x : num, pcnt_of x = fmul (fconst 100) (fsub (fexp x) (fconst 1)).
Proof.
  intros model round_to. split; [|reflexivity].
  unfold get_ci_df. rewrite !map_map. apply map_ext.
  intros [n c l u]. reflexivity.
Qed.

End ConfidenceIntervals.

(** ** The labels of a 0/1 grouping column *)

Section FlagLabels.

Variable str_of_num : Q -> string.

(** C4, on the code.  A grouping column of the strings ["1"] and ["0"] is
    taken for a flag, and its rows are labelled ["Recored autism"] and
    ["No recorded autism"]: the first label is not ["Recorded autism"].  A
    grouping column of the numbers 1 and 0 is taken for a flag too, and
    every row of it, the rows of flag 1 as well, is labelled
    ["No recorded autism"], since a number is never equal to the string
    ["1"]. *)
Theorem relabel_flag_labels :
  is_bool_as_int (series_of [CStr "1"; CStr "0"]) = true
  /\ relabel_flag str_of_num "group_0" [flag_row (CStr "1"); flag_row (CStr "0")]
     = Ok [flag_row (CStr "Recored autism");
           flag_row (CStr "No recorded autism")]
  /\ CStr "Recored autism" <> CStr "Recorded autism"
  /\ is_bool_as_int (series_of [CNum 1; CNum 0]) = true
  /\ relabel_flag str_of_num "group_0" [flag_row (CNum 1); flag_row (CNum 0)]
     = Ok [flag_row (CStr "No recorded autism");
           flag_row (CStr "No recorded autism")].
Proof.
  repeat split; try reflexivity. discriminate.
Qed.

(** The label the specification names is then no level of the column:
    asked for as the reference, it makes [get_formula] raise. *)
Lemma relabelled_reference_missing :
  forall (df : list ItsRow) (fourier_terms : option (list string)),
    map obs df
    = coerce_numeric integer_to_number
        [flag_row (CStr "Recored autism"); flag_row (CStr "No recorded autism")] ->
    get_formula df fourier_terms (Some "group_0") (Some (CStr "Recorded autism"))
    = Raise (ValueError "list.remove(x): x not in list").
Proof.
  intros df ft Hobs. unfold get_formula, column. simpl. rewrite Hobs. reflexivity.
Qed.

End FlagLabels.

(** ** The formula and the order of the levels *)

Section Formula.

Local Open Scope string_scope.

Lemma label_of_name_Ok (g : string) (lab : label) :
  label_of_name g = Ok lab ->
  g = "group_0" \/ g = "category_0" \/ g = "group_1" \/ g = "category_1".
Proof.
  unfold label_of_name.
  destruct (String.eqb_spec g "group_0"); [tauto|].
  destruct (String.eqb_spec g "category_0"); [tauto|].
  destruct (String.eqb_spec g "group_1"); [tauto|].
  destruct (String.eqb_spec g "category_1"); [tauto|].
  discriminate.
Qed.

(** [remove] takes the first element equal to [x] out and leaves the
    others where they are. *)
Lemma list_remove_first (x : cell) (l : list cell) :
  existsb (fun c => cell_same c x) l = true ->
  exists before r after,
    l = (before ++ r :: after)%list
    /\ cell_same r x = true
    /\ Forall (fun c => cell_same c x = false) before
    /\ list_remove x l = Ok (before ++ after)%list.
Proof.
  induction l as [|c l IH]; simpl; [discriminate|].
  destruct (cell_same c x) eqn:E; simpl.
  - intros _. exists [], c, l. repeat split; auto.
  - intros Hex. destruct (IH Hex) as [before [r [after [-> [Hr [Hb Hrem]]]]]].
    exists (c :: before), r, after. rewrite Hrem. simpl.
    repeat split; auto.
Qed.

Lemma cell_same_not_null (r x : cell) :
  cell_same r x = true -> isnull r = false -> isnull x = false.
Proof. destruct r, x; simpl; congruence. Qed.

Lemma existsb_app_false {A : Type} (f : A -> bool) (a b : list A) (x : A) :
  existsb f (a ++ x :: b)%list = false ->
  f x = false /\ existsb f (a ++ b)%list = false.
Proof.
  rewrite !existsb_app. simpl.
  destruct (existsb f a), (f x), (existsb f b); simpl; intros; auto; discriminate.
Qed.

(** C6.  The formula of [get_formula] lists [time], [step], [slope],
    [mar20], [april20], [step2], [slope2] in this order; with an
    interaction group whose reference is one of the levels of the column,
    the levels are set to the reference followed by the other levels in
    the order they had, and the formula goes on with [step], [slope],
    [step2] and [slope2] each crossed with the grouping column; with
    harmonics, [s1] and [c1] come last, on their own. *)
Theorem get_formula_terms :
  forall (df : list ItsRow) (harmonics : bool),
    let fourier_terms := if harmonics then Some fourier_columns else None in
    let last_terms := if harmonics then fourier_columns else [] in
    (forall reference,
        exists formula,
          get_formula df fourier_terms None reference = Ok (formula, None)
          /\ formula_terms formula = (base_terms ++ last_terms)%list)
    /\ (forall (g : string) (lab : label) (reference : cell),
           label_of_name g = Ok lab ->
           let levels := unique (map (get_label lab) (map obs df)) in
           existsb (fun c => cell_same c reference) levels = true ->
           existsb isnull levels = false ->
           exists before r after formula,
             levels = (before ++ r :: after)%list
             /\ cell_same r reference = true
             /\ Forall (fun c => cell_same c reference = false) before
             /\ get_formula df fourier_terms (Some g) (Some reference)
                = Ok (formula, Some (reference :: before ++ after)%list)
             /\ formula_terms formula
                = (base_terms ++ map (fun t => (t ++ "*" ++ g)%string) crossed_terms
                              ++ last_terms)%list).
Proof.
  intros df harmonics fourier_terms last_terms. split.
  - intros reference. unfold get_formula. simpl.
    eexists. split; [reflexivity|].
    unfold fourier_terms, last_terms. now destruct harmonics.
  - intros g lab reference Hlab levels Hex Hnull.
    destruct (list_remove_first reference levels Hex)
      as [before [r [after [Hlev [Hr [Hb Hrem]]]]]].
    exists before, r, after.
    assert (Hcat : reorder_categories (reference :: before ++ after)%list
                   = Ok (reference :: before ++ after)%list).
    { unfold reorder_categories. rewrite Hlev in Hnull.
      destruct (existsb_app_false _ _ _ _ Hnull) as [Hrn Hrest].
      simpl. now rewrite (cell_same_not_null r reference Hr Hrn), Hrest. }
    assert (Hf : get_formula df fourier_terms (Some g) (Some reference)
                 = Ok (match fourier_terms with
                       | Some terms =>
                           ("numerator ~ time + step + slope + mar20 + april20 + step2 + slope2"
                            ++ "+ step*" ++ g ++ " + slope*" ++ g
                            ++ " + step2*" ++ g ++ " + slope2*" ++ g)
                           ++ "+ " ++ PyStr.join "+" terms
                       | None =>
                           "numerator ~ time + step + slope + mar20 + april20 + step2 + slope2"
                           ++ "+ step*" ++ g ++ " + slope*" ++ g
                           ++ " + step2*" ++ g ++ " + slope2*" ++ g
                       end,
                       Some (reference :: before ++ after)%list)).
    { unfold get_formula, column. rewrite Hlab.
      cbn [bind]. fold levels. rewrite Hrem. cbn [bind]. rewrite Hcat.
      cbn [bind fst snd]. reflexivity. }
    eexists. split; [exact Hlev|]. split; [exact Hr|]. split; [exact Hb|].
    split; [exact Hf|].
    unfold fourier_terms, last_terms.
    destruct (label_of_name_Ok g lab Hlab) as [->|[->|[->| ->]]];
      destruct harmonics; reflexivity.
Qed.

End Formula.

Lemma get_formula_terms_witness :
  label_of_name "group_0" = Ok Group0
  /\ existsb (fun c => cell_same c (CStr "M"))
       (unique (map (get_label Group0) (map obs sex_frame))) = true
  /\ existsb isnull (unique (map (get_label Group0) (map obs sex_frame))) = false
  /\ exists before r after formula,
      unique (map (get_label Group0) (map obs sex_frame))
      = before ++ r :: after
      /\ cell_same r (CStr "M") = true
      /\ Forall (fun c => cell_same c (CStr "M") = false) before
      /\ get_formula sex_frame (Some fourier_columns) (Some "group_0")
           (Some (CStr "M"))
         = Ok (formula, Some (CStr "M" :: before ++ after))
      /\ formula_terms formula
         = base_terms ++ map (fun t => (t ++ "*" ++ "group_0")%string) crossed_terms
                      ++ fourier_columns.
Proof.
  split; [reflexivity|]. split; [reflexivity|]. split; [reflexivity|].
  apply (proj2 (get_formula_terms sex_frame true) "group_0" Group0 (CStr "M")
           eq_refl eq_refl eq_refl).
Defined.

(** On the breakdown by sex with the reference M: the levels F, M, U
    become M, F, U. *)
Example get_formula_sex :
  get_formula sex_frame (Some fourier_columns) (Some "group_0") (Some (CStr "M"))
  = Ok ("numerator ~ time + step + slope + mar20 + april20 + step2 + slope2+ step*group_0 + slope*group_0 + step2*group_0 + slope2*group_0+ s1+c1"%string,
        Some [CStr "M"; CStr "F"; CStr "U"]).
Proof. reflexivity. Qed.

(** * Further properties of the code *)

(** ** Selecting the rows of a measure *)

Section SubsetTable.

Variable fnmatch : string -> string -> bool.

Lemma match_paths_in (files : list string) (pattern n : string) :
  In n (match_paths fnmatch files pattern)
  <-> In n files /\ fnmatch n pattern = true.
Proof.
  unfold match_paths.
  exact (filter_In (fun f => fnmatch f pattern) n files).
Qed.

Lemma subset_table_filter (V : Type) (measure_table : list (MeasureRow V))
  (pattern : string) :
  subset_table fnmatch measure_table pattern
  = if existsb (fun r => fnmatch (name r) pattern) measure_table
    then Ok (filter (fun r => fnmatch (name r) pattern) measure_table)
    else Raise (ValueError
           ("Pattern did not match any files: " ++ pattern)%string).
Proof.
  revert V measure_table pattern.
  intros V t p. unfold subset_table.
  destruct (existsb (fun r => fnmatch (name r) p) t) eqn:E.
  - apply existsb_exists in E. destruct E as [r [Hr Hm]].
    assert (Hin : In (name r) (match_paths fnmatch (map name t) p)).
    { apply match_paths_in. split; [now apply in_map | exact Hm]. }
    remember (match_paths fnmatch (map name t) p) as ml eqn:El.
    destruct ml as [|n ns]; [contradiction|].
    change (List.length (n :: ns) =? 0)%nat with false. cbv iota.
    f_equal. rewrite El. apply filter_ext_in. intros a Ha.
    destruct (fnmatch (name a) p) eqn:Ea.
    + apply existsb_exists. exists (name a). split; [|apply String.eqb_refl].
      apply match_paths_in. split; [now apply in_map | exact Ea].
    + destruct (existsb _ _) eqn:Ex; [|reflexivity].
      apply existsb_exists in Ex. destruct Ex as [m [Hm' Heq]].
      apply String.eqb_eq in Heq. subst m.
      apply match_paths_in in Hm'. destruct Hm' as [_ Hm']. congruence.
  - destruct (match_paths fnmatch (map name t) p) as [|n ns] eqn:El;
      [reflexivity|].
    assert (Hin : In n (match_paths fnmatch (map name t) p))
      by (rewrite El; now left).
    apply match_paths_in in Hin. destruct Hin as [Hn Hm].
    apply in_map_iff in Hn. destruct Hn as [r [<- Hr]].
    assert (existsb (fun r => fnmatch (name r) p) t = true)
      by (apply existsb_exists; now exists r).
    congruence.
Qed.

(** [subset_table] keeps, in their order, exactly the rows whose name
    matches the pattern, and raises [ValueError] with the pattern in its
    message when no row does: it never returns an empty table. *)
Theorem subset_table_matches :
  forall (V : Type) (measure_table : list (MeasureRow V)) (pattern : string),
    subset_table fnmatch measure_table pattern
    = (if existsb (fun r => fnmatch (name r) pattern) measure_table
       then Ok (filter (fun r => fnmatch (name r) pattern) measure_table)
       else Raise (ValueError
              ("Pattern did not match any files: " ++ pattern)%string))
    /\ subset_table fnmatch measure_table pattern <> Ok [].
Proof.
  intros V t p. rewrite subset_table_filter. split; [reflexivity|].
  destruct (existsb (fun r => fnmatch (name r) p) t) eqn:E; [|discriminate].
  apply existsb_exists in E. destruct E as [r [Hr Hm]].
  intros Hnil. injection Hnil as Hnil.
  assert (Hin : In r (filter (fun r => fnmatch (name r) p) t))
    by (apply filter_In; now split).
  rewrite Hnil in Hin. contradiction.
Qed.

End SubsetTable.

(** ** Errors and invariants of the derived regressors *)

Section ItsInvariants.

Lemma cutmonth_is_ok (my : Z) (df : list (MeasureRow (option Q)))
  (cutdate : Timestamp) :
  is_ok (cutmonth my df cutdate) = existsb (fun r => ts_eqb (date r) cutdate) df.
Proof.
  unfold cutmonth. induction df as [|r df IH]; simpl; [reflexivity|].
  destruct (ts_eqb (date r) cutdate); simpl; [reflexivity | exact IH].
Qed.

Lemma cutmonth_raises (my : Z) (df : list (MeasureRow (option Q)))
  (cutdate : Timestamp) :
  is_ok (cutmonth my df cutdate) = false ->
  cutmonth my df cutdate
  = Raise (IndexError "single positional indexer is out-of-bounds").
Proof.
  unfold cutmonth. now destruct (filter _ df).
Qed.

(** [get_its_variables] returns exactly when both cutoff dates are dates
    of the table.  On the empty table it raises the [ValueError] of [min];
    on a table that lacks a cutoff date, the [IndexError] of [iloc[0]]. *)
Theorem get_its_variables_raises :
  forall (df : list (MeasureRow (option Q))) (cutdate1 cutdate2 : Timestamp),
    is_ok (get_its_variables df cutdate1 cutdate2)
    = existsb (fun r => ts_eqb (date r) cutdate1) df
      && existsb (fun r => ts_eqb (date r) cutdate2) df
    /\ get_its_variables [] cutdate1 cutdate2
       = Raise (ValueError "min() arg is an empty sequence")
    /\ (df <> [] ->
        is_ok (get_its_variables df cutdate1 cutdate2) = false ->
        get_its_variables df cutdate1 cutdate2
        = Raise (IndexError "single positional indexer is out-of-bounds")).
Proof.
  intros df c1 c2. split; [|split; [reflexivity|]].
  - unfold get_its_variables. destruct df as [|r df]; [reflexivity|].
    cbn [py_min bind map].
    set (my := fold_left Z.min _ _).
    rewrite <- (cutmonth_is_ok my (r :: df) c1), <- (cutmonth_is_ok my (r :: df) c2).
    destruct (cutmonth my (r :: df) c1); cbn [bind is_ok]; [|reflexivity].
    destruct (cutmonth my (r :: df) c2); reflexivity.
  - intros Hne. unfold get_its_variables. destruct df as [|r df]; [congruence|].
    cbn [py_min bind map].
    set (my := fold_left Z.min _ _).
    destruct (cutmonth my (r :: df) c1) eqn:E1; cbn [bind].
    + destruct (cutmonth my (r :: df) c2) eqn:E2; cbn [bind is_ok].
      * discriminate.
      * intros _. pose proof (cutmonth_raises my (r :: df) c2) as Hr.
        rewrite E2 in Hr. injection (Hr eq_refl) as ->. reflexivity.
    + intros _. pose proof (cutmonth_raises my (r :: df) c1) as Hr.
      rewrite E1 in Hr. injection (Hr eq_refl) as ->. reflexivity.
Qed.

(** The regressors of a row hang together: [step] is 0 or 1 and is 1
    exactly where [slope] is positive, [mar20] marks the row where [slope]
    is 1 and [april20] the row where it is 2, the same holds of [step2]
    and [slope2], and the index is [time]. *)
Theorem get_its_variables_columns :
  forall (df : list (MeasureRow (option Q))) (cutdate1 cutdate2 : Timestamp)
         (out : list ItsRow),
    get_its_variables df cutdate1 cutdate2 = Ok out ->
    Forall (fun x =>
              (step x = 0 \/ step x = 1) /\ 0 <= slope x
              /\ (step x = 1 <-> 0 < slope x)
              /\ (step2 x = 0 \/ step2 x = 1) /\ 0 <= slope2 x
              /\ (step2 x = 1 <-> 0 < slope2 x)
              /\ (mar20 x = 1 <-> slope x = 1) /\ (mar20 x = 0 \/ mar20 x = 1)
              /\ (april20 x = 1 <-> slope x = 2)
              /\ (april20 x = 0 \/ april20 x = 1)
              /\ index x = time x) out.
Proof.
  intros df c1 c2 out Hout.
  destruct (get_its_variables_Ok _ _ _ _ Hout) as [my [_ [_ [_ ->]]]].
  apply Forall_forall. intros x Hx. apply in_its_rows in Hx.
  destruct Hx as [r [_ ->]]. simpl.
  set (t := time_of my (date r)).
  set (m1 := time_of my c1 - 1). set (m2 := time_of my c2 - 1).
  destruct (Z.gtb_spec t m1); destruct (Z.gtb_spec t m2);
    destruct (Z.eqb_spec t (m1 + 1)); destruct (Z.eqb_spec t (m1 + 2));
    repeat split; intros; try lia.
Qed.

(** Over the rows of a table the regressors never go down as [time] goes
    up, and [slope] and [slope2] go up by at most one a month. *)
Theorem get_its_variables_monotone :
  forall (df : list (MeasureRow (option Q))) (cutdate1 cutdate2 : Timestamp)
         (out : list ItsRow) (x y : ItsRow),
    get_its_variables df cutdate1 cutdate2 = Ok out ->
    In x out -> In y out -> time x <= time y ->
    step x <= step y /\ slope x <= slope y
    /\ slope y - slope x <= time y - time x
    /\ step2 x <= step2 y /\ slope2 x <= slope2 y
    /\ slope2 y - slope2 x <= time y - time x.
Proof.
  intros df c1 c2 out x y Hout Hx Hy.
  destruct (get_its_variables_Ok _ _ _ _ Hout) as [my [_ [_ [_ ->]]]].
  apply in_its_rows in Hx, Hy.
  destruct Hx as [a [_ ->]], Hy as [b [_ ->]]. simpl.
  set (ta := time_of my (date a)). set (tb := time_of my (date b)).
  set (m1 := time_of my c1 - 1). set (m2 := time_of my c2 - 1).
  intros Hle.
  destruct (Z.gtb_spec ta m1); destruct (Z.gtb_spec tb m1);
    destruct (Z.gtb_spec ta m2); destruct (Z.gtb_spec tb m2);
    repeat split; lia.
Qed.

(** With the two cutoffs of [get_model], a year apart: the second step is
    on only where the first is, and [slope2] is [slope] less twelve, not
    below zero. *)
Theorem get_its_variables_second_cutoff :
  forall (df : list (MeasureRow (option Q))) (out : list ItsRow),
    get_its_variables df STEP_TIME_1 STEP_TIME_2 = Ok out ->
    Forall (fun x => step2 x <= step x
                     /\ slope2 x = Z.max (slope x - 12) 0
                     /\ (step2 x = 1 <-> 12 < slope x)) out.
Proof.
  intros df out Hout.
  destruct (get_its_variables_Ok _ _ _ _ Hout) as [my [_ [_ [_ ->]]]].
  apply Forall_forall. intros x Hx. apply in_its_rows in Hx.
  destruct Hx as [r [_ ->]]. simpl.
  assert (H12 : time_of my STEP_TIME_2 = time_of my STEP_TIME_1 + 12)
    by (unfold time_of, STEP_TIME_1, STEP_TIME_2; cbn [year month]; lia).
  rewrite H12.
  set (t := time_of my (date r)). set (m := time_of my STEP_TIME_1).
  destruct (Z.gtb_spec t (m - 1)); destruct (Z.gtb_spec t (m + 12 - 1));
    repeat split; intros; try lia.
Qed.

End ItsInvariants.

Section ItsInvariantWitnesses.

Lemma get_its_variables_columns_witness :
  get_its_variables monthly_example STEP_TIME_1 STEP_TIME_2 = Ok monthly_its
  /\ Forall (fun x =>
               (step x = 0 \/ step x = 1) /\ 0 <= slope x
               /\ (step x = 1 <-> 0 < slope x)
               /\ (step2 x = 0 \/ step2 x = 1) /\ 0 <= slope2 x
               /\ (step2 x = 1 <-> 0 < slope2 x)
               /\ (mar20 x = 1 <-> slope x = 1) /\ (mar20 x = 0 \/ mar20 x = 1)
               /\ (april20 x = 1 <-> slope x = 2)
               /\ (april20 x = 0 \/ april20 x = 1)
               /\ index x = time x) monthly_its.
Proof.
  split; [reflexivity|].
  exact (get_its_variables_columns monthly_example STEP_TIME_1 STEP_TIME_2
           monthly_its eq_refl).
Defined.

Lemma get_its_variables_monotone_witness :
  get_its_variables monthly_example STEP_TIME_1 STEP_TIME_2 = Ok monthly_its
  /\ In (its_row 2020 2 14 (month_row 2020 2)) monthly_its
  /\ In (its_row 2020 2 14 (month_row 2020 4)) monthly_its
  /\ time (its_row 2020 2 14 (month_row 2020 2))
     <= time (its_row 2020 2 14 (month_row 2020 4))
  /\ step (its_row 2020 2 14 (month_row 2020 2))
     <= step (its_row 2020 2 14 (month_row 2020 4))
  /\ slope (its_row 2020 2 14 (month_row 2020 2))
     <= slope (its_row 2020 2 14 (month_row 2020 4)).
Proof.
  assert (H2 : In (its_row 2020 2 14 (month_row 2020 2)) monthly_its)
    by (unfold monthly_its, monthly_example; simpl; tauto).
  assert (H4 : In (its_row 2020 2 14 (month_row 2020 4)) monthly_its)
    by (unfold monthly_its, monthly_example; simpl; tauto).
  assert (Hle : time (its_row 2020 2 14 (month_row 2020 2))
                <= time (its_row 2020 2 14 (month_row 2020 4)))
    by (vm_compute; discriminate).
  split; [reflexivity|]. split; [exact H2|]. split; [exact H4|].
  split; [exact Hle|].
  destruct (get_its_variables_monotone monthly_example STEP_TIME_1 STEP_TIME_2
              monthly_its _ _ eq_refl H2 H4 Hle) as [A [B _]].
  split; [exact A | exact B].
Defined.

Lemma get_its_variables_second_cutoff_witness :
  get_its_variables monthly_example STEP_TIME_1 STEP_TIME_2 = Ok monthly_its
  /\ Forall (fun x => step2 x <= step x
                      /\ slope2 x = Z.max (slope x - 12) 0
                      /\ (step2 x = 1 <-> 12 < slope x)) monthly_its.
Proof.
  split; [reflexivity|].
  exact (get_its_variables_second_cutoff monthly_example monthly_its eq_refl).
Defined.

End ItsInvariantWitnesses.

(** ** Missing values on the way to the rate *)

Section Rate.

Variable to_number : string -> option Q.

(** From the table as read to the ITS frame: a row whose [value] is not
    numeric has no [rate], never the rate zero; a row whose [value] is the
    number [v], or a string that spells [v], has the rate [1000 * v]; no
    row is lost on the way. *)
Theorem rate_of_coerced_value :
  forall (table : list (MeasureRow cell)) (cutdate1 cutdate2 : Timestamp)
         (out : list ItsRow),
    get_its_variables (coerce_numeric to_number table) cutdate1 cutdate2 = Ok out ->
    List.length out = List.length table
    /\ forall (i : nat) (r : MeasureRow cell),
        nth_error table i = Some r ->
        exists x,
          nth_error out i = Some x
          /\ date (obs x) = date r
          /\ (non_numeric to_number (value r) = true ->
              rate x = None /\ rate x <> Some 0%Q)
          /\ (forall v, value r = CNum v -> rate x = Some (1000 * v)%Q)
          /\ (forall s v, value r = CStr s -> to_number s = Some v ->
                          rate x = Some (1000 * v)%Q).
Proof.
  intros table c1 c2 out Hout.
  destruct (get_its_variables_Ok _ _ _ _ Hout) as [my [_ [_ [_ ->]]]].
  unfold coerce_numeric. rewrite !length_map. split; [reflexivity|].
  intros i r Hi. rewrite !nth_error_map, Hi. simpl.
  eexists. split; [reflexivity|]. simpl. split; [reflexivity|].
  split; [|split].
  - intros Hn. rewrite (to_numeric_missing to_number _ Hn). simpl.
    split; [reflexivity | discriminate].
  - intros v ->. reflexivity.
  - intros s v -> Hs. simpl. now rewrite Hs.
Qed.

End Rate.

Lemma rate_of_coerced_value_witness :
  get_its_variables (coerce_numeric integer_to_number [redacted_row; twelve_row])
    STEP_TIME_1 STEP_TIME_2
  = Ok (map (its_row 2020 2 14)
            (coerce_numeric integer_to_number [redacted_row; twelve_row]))
  /\ exists x y,
      nth_error (map (its_row 2020 2 14)
                     (coerce_numeric integer_to_number
                        [redacted_row; twelve_row])) 0 = Some x
      /\ rate x = None /\ rate x <> Some 0%Q
      /\ nth_error (map (its_row 2020 2 14)
                       (coerce_numeric integer_to_number
                          [redacted_row; twelve_row])) 1 = Some y
      /\ rate y = Some (1000 * 12)%Q.
Proof.
  split; [reflexivity|].
  destruct (proj2 (rate_of_coerced_value integer_to_number
                     [redacted_row; twelve_row] STEP_TIME_1 STEP_TIME_2 _ eq_refl)
              0%nat redacted_row eq_refl) as [x [Hx [_ [Hn _]]]].
  destruct (proj2 (rate_of_coerced_value integer_to_number
                     [redacted_row; twelve_row] STEP_TIME_1 STEP_TIME_2 _ eq_refl)
              1%nat twelve_row eq_refl) as [y [Hy [_ [_ [_ Hs]]]]].
  exists x, y. split; [exact Hx|].
  destruct (Hn eq_refl) as [N1 N2].
  split; [exact N1|]. split; [exact N2|]. split; [exact Hy|].
  exact (Hs "12"%string 12%Q eq_refl eq_refl).
Defined.

(** ** A reference that is no level *)

Section FormulaErrors.

Lemma list_remove_absent (x : cell) (l : list cell) :
  existsb (fun c => cell_same c x) l = false ->
  list_remove x l = Raise (ValueError "list.remove(x): x not in list").
Proof.
  induction l as [|c l IH]; simpl; [reflexivity|].
  destruct (cell_same c x); simpl; [discriminate|].
  intros Hex. now rewrite (IH Hex).
Qed.

(** With an interaction group, [get_formula] raises the [ValueError] of
    [list.remove] when the reference is none of the levels of the column
    (so on every empty frame) and when no reference is given; the fit is
    not reached. *)
Theorem get_formula_reference_missing :
  forall (df : list ItsRow) (fourier_terms : option (list string))
         (g : string) (lab : label),
    label_of_name g = Ok lab ->
    get_formula df fourier_terms (Some g) None
    = Raise (ValueError "list.remove(x): x not in list")
    /\ forall reference : cell,
        existsb (fun c => cell_same c reference)
                (unique (map (get_label lab) (map obs df))) = false ->
        get_formula df fourier_terms (Some g) (Some reference)
        = Raise (ValueError "list.remove(x): x not in list").
Proof.
  intros df ft g lab Hlab. unfold get_formula, column. rewrite Hlab.
  cbn [bind]. split; [reflexivity|].
  intros reference Hex. now rewrite (list_remove_absent _ _ Hex).
Qed.

End FormulaErrors.

Lemma get_formula_reference_missing_witness :
  label_of_name "group_0" = Ok Group0
  /\ existsb (fun c => cell_same c (CStr "X"))
       (unique (map (get_label Group0) (map obs sex_frame))) = false
  /\ get_formula sex_frame None (Some "group_0") (Some (CStr "X"))
     = Raise (ValueError "list.remove(x): x not in list").
Proof.
  split; [reflexivity|]. split; [reflexivity|].
  exact (proj2 (get_formula_reference_missing sex_frame None "group_0" Group0
                  eq_refl) (CStr "X") eq_refl).
Defined.

(** ** Flags and labels *)

Section Flags.

Lemma mapM_raise_in {A B : Type} (f : A -> result B) (l : list A) (a : A) (e : exn) :
  In a l -> f a = Raise e -> is_ok (mapM f l) = false.
Proof.
  intros Hin Hf. rewrite mapM_is_ok.
  destruct (forallb _ l) eqn:E; [|reflexivity].
  rewrite forallb_forall in E. specialize (E a Hin). now rewrite Hf in E.
Qed.

Lemma mapM_total {A B : Type} (f : A -> result B) (h : A -> B) (l : list A) :
  (forall a, In a l -> f a = Ok (h a)) -> mapM f l = Ok (map h l).
Proof.
  induction l as [|a l IH]; simpl; intros Hf; [reflexivity|].
  rewrite (Hf a (or_introl eq_refl)). simpl.
  rewrite IH by (intros b Hb; apply Hf; now right). reflexivity.
Qed.

(** A column that holds a string [int] does not read, a label such as
    ["M"] or ["30-39"], is never taken for a 0/1 flag. *)
Theorem is_bool_as_int_rejects_labels :
  forall (l : list cell) (s : string) (e : exn),
    In (CStr s) l -> int_of_str s = Raise e ->
    is_bool_as_int (series_of l) = false.
Proof.
  intros l s e Hin Hs.
  assert (Hstr : existsb is_str_cell l = true)
    by (apply existsb_exists; now exists (CStr s)).
  unfold is_bool_as_int, series_of, is_bool_dtype, is_numeric_dtype,
    is_object_dtype, infer_dtype. cbn [s_dtype s_values].
  rewrite Hstr. cbn.
  pose proof (mapM_raise_in astype_int l (CStr s) e Hin Hs) as Hm.
  now destruct (mapM astype_int l).
Qed.

End Flags.

Lemma is_bool_as_int_rejects_labels_witness :
  In (CStr "M") [CStr "F"; CStr "M"]
  /\ int_of_str "M" = Raise (ValueError "invalid literal for int() with base 10")
  /\ is_bool_as_int (series_of [CStr "F"; CStr "M"]) = false.
Proof.
  assert (Hin : In (CStr "M") [CStr "F"; CStr "M"]) by (simpl; tauto).
  split; [exact Hin|]. split; [reflexivity|].
  exact (is_bool_as_int_rejects_labels [CStr "F"; CStr "M"] "M" _ Hin eq_refl).
Defined.

Section Relabel.

Variable str_of_num : Q -> string.

Lemma get_set_label_other {V : Type} (l lab : label) (v : cell) (r : MeasureRow V) :
  l <> lab -> get_label l (set_label lab v r) = get_label l r.
Proof. destruct l, lab; simpl; congruence. Qed.

Lemma category_of_label (g : string) (lab : label) :
  label_of_name g = Ok lab ->
  exists c, label_of_name (PyStr.replace "group" "category" g) = Ok c.
Proof.
  intros Hlab.
  destruct (label_of_name_Ok g lab Hlab) as [->|[->|[->| ->]]];
    eexists; reflexivity.
Qed.

(** On a label column [relabel_flag] never raises.  It keeps every row at
    its place and every column but the grouping column as it is, and it
    leaves the whole frame as it is when the grouping column is no 0/1
    flag. *)
Theorem relabel_flag_keeps_frame :
  forall (V : Type) (g : string) (lab : label) (numeric : list (MeasureRow V)),
    label_of_name g = Ok lab ->
    exists out,
      relabel_flag str_of_num g numeric = Ok out
      /\ List.length out = List.length numeric
      /\ (forall (i : nat) (r : MeasureRow V),
             nth_error numeric i = Some r ->
             exists r',
               nth_error out i = Some r'
               /\ date r' = date r /\ name r' = name r
               /\ numerator r' = numerator r /\ denominator r' = denominator r
               /\ value r' = value r
               /\ forall l, l <> lab -> get_label l r' = get_label l r)
      /\ (is_bool_as_int (series_of (map (get_label lab) numeric)) = false ->
          out = numeric).
Proof.
  intros V g lab numeric Hlab.
  destruct (category_of_label g lab Hlab) as [c Hc].
  unfold relabel_flag. rewrite Hlab. cbn [bind].
  destruct (is_bool_as_int (series_of (map (get_label lab) numeric))) eqn:E.
  - set (h := fun x : MeasureRow V =>
                set_label lab
                  (CStr (if py_eq (get_label lab x) (CStr "1")
                         then ("Recored " ++ format_cell str_of_num (get_label c x))%string
                         else ("No recorded "
                               ++ format_cell str_of_num (get_label c x))%string))
                  x).
    exists (map h numeric). split.
    { apply mapM_total. intros a _. rewrite Hc. reflexivity. }
    split; [apply length_map|]. split; [|discriminate].
    intros i r Hi. exists (h r). rewrite nth_error_map, Hi.
    split; [reflexivity|].
    repeat split. intros l Hl. unfold h. now apply get_set_label_other.
  - exists numeric. split; [reflexivity|]. split; [reflexivity|].
    split; [|reflexivity].
    intros i r Hi. exists r. repeat split. exact Hi.
Qed.

End Relabel.

Lemma relabel_flag_keeps_frame_witness :
  label_of_name "group_0" = Ok Group0
  /\ exists out,
      relabel_flag (fun _ => EmptyString) "group_0"
        [flag_row (CStr "M"); flag_row (CStr "F")] = Ok out
      /\ List.length out = 2%nat
      /\ out = [flag_row (CStr "M"); flag_row (CStr "F")].
Proof.
  split; [reflexivity|].
  destruct (relabel_flag_keeps_frame (fun _ => EmptyString) cell "group_0" Group0
              [flag_row (CStr "M"); flag_row (CStr "F")] eq_refl)
    as [out [Hout [Hlen [_ Hid]]]].
  exists out. split; [exact Hout|]. split; [exact Hlen|].
  exact (Hid eq_refl).
Defined.

Section SeriesToBool.

Lemma zero_or_one_int (q : Q) :
  zero_or_one (CNum q) = true ->
  negb (int_of_Q q =? 0) = Qeq_bool q 1.
Proof.
  unfold zero_or_one, py_eq, int_of_Q. destruct q as [n d].
  unfold Qeq_bool. cbn [Qnum Qden].
  rewrite !Z.mul_1_r, Z.mul_1_l, Z.mul_0_l.
  rewrite orb_true_iff, !Z.eqb_eq. intros [H|H]; subst n.
  - rewrite Z.quot_0_l by discriminate. reflexivity.
  - rewrite Z.quot_same by discriminate. rewrite Z.eqb_refl. reflexivity.
Qed.

Lemma numeric_cells (l : list cell) :
  existsb is_str_cell l = false -> existsb is_bool_cell l = false ->
  Forall (fun c => c = CNaN \/ exists q, c = CNum q) l.
Proof.
  intros Hs Hb. apply Forall_forall. intros c Hc.
  destruct c as [q|s|b|].
  - right. now exists q.
  - assert (existsb is_str_cell l = true)
      by (apply existsb_exists; now exists (CStr s)). congruence.
  - assert (existsb is_bool_cell l = true)
      by (apply existsb_exists; now exists (CBool b)). congruence.
  - now left.
Qed.

Lemma astype_int_numeric (l : list cell) :
  Forall (fun c => c = CNaN \/ exists q, c = CNum q) l ->
  forallb zero_or_one (dropna l) = true ->
  if existsb isnull l
  then exists msg, mapM astype_int l = Raise (ValueError msg)
  else mapM (fun c => Ok (CBool (py_eq c (CNum 1)))) l
       = (ints <- mapM astype_int l ;;
          Ok (map (fun z => CBool (negb (z =? 0))) ints)).
Proof.
  induction 1 as [|c l Hc Hl IH]; simpl; [reflexivity|].
  destruct Hc as [->|[q ->]]; simpl.
  - intros _. now eexists.
  - rewrite andb_true_iff. intros [Hq Hrest]. specialize (IH Hrest).
    destruct (existsb isnull l).
    + destruct IH as [msg ->]. simpl. now eexists.
    + rewrite IH. destruct (mapM astype_int l); simpl; [|reflexivity].
      now rewrite (zero_or_one_int q Hq).
Qed.

(** A numeric column whose values, the missing ones apart, are 0 and 1
    is taken for a flag.  [series_to_bool] turns it into booleans, value
    by value, when nothing is missing; when a value is missing, the
    conversion to integers raises [ValueError], although the test had let
    the column through. *)
Theorem series_to_bool_numeric :
  forall l : list cell,
    existsb is_str_cell l = false -> existsb is_bool_cell l = false ->
    forallb zero_or_one (dropna l) = true ->
    is_bool_as_int (series_of l) = true
    /\ (existsb isnull l = true ->
        exists msg, series_to_bool (series_of l) = Raise (ValueError msg))
    /\ (existsb isnull l = false ->
        series_to_bool (series_of l)
        = Ok {| s_dtype := bool_dtype;
                s_values := map (fun c => CBool (py_eq c (CNum 1))) l |}).
Proof.
  intros l Hs Hb Hflag.
  assert (Hflagged : is_bool_as_int (series_of l) = true).
  { unfold is_bool_as_int, series_of, is_bool_dtype, is_numeric_dtype,
      infer_dtype. cbn [s_dtype s_values]. rewrite Hs, Hb. cbn. exact Hflag. }
  split; [exact Hflagged|].
  pose proof (astype_int_numeric l (numeric_cells l Hs Hb) Hflag) as Hm.
  unfold series_to_bool. rewrite Hflagged.
  replace (s_values (series_of l)) with l by reflexivity.
  split; intros Hn; rewrite Hn in Hm.
  - destruct Hm as [msg ->]. simpl. now eexists.
  - destruct (mapM astype_int l) as [ints|e]; simpl in *.
    + rewrite (mapM_total _ (fun c => CBool (py_eq c (CNum 1))) l) in Hm
        by reflexivity.
      injection Hm as <-. reflexivity.
    + rewrite (mapM_total _ (fun c => CBool (py_eq c (CNum 1))) l) in Hm
        by reflexivity.
      discriminate.
Qed.

End SeriesToBool.

Lemma series_to_bool_numeric_witness :
  is_bool_as_int (series_of [CNum 1; CNaN; CNum 0]) = true
  /\ (exists msg,
         series_to_bool (series_of [CNum 1; CNaN; CNum 0])
         = Raise (ValueError msg))
  /\ series_to_bool (series_of [CNum 1; CNum 0])
     = Ok {| s_dtype := bool_dtype; s_values := [CBool true; CBool false] |}.
Proof.
  split; [|split].
  - exact (proj1 (series_to_bool_numeric [CNum 1; CNaN; CNum 0]
                    eq_refl eq_refl eq_refl)).
  - exact (proj1 (proj2 (series_to_bool_numeric [CNum 1; CNaN; CNum 0]
                           eq_refl eq_refl eq_refl)) eq_refl).
  - exact (proj2 (proj2 (series_to_bool_numeric [CNum 1; CNum 0]
                           eq_refl eq_refl eq_refl)) eq_refl).
Defined.

(** ** The table of the intervals *)

Section TranslateToCi.

Context {num : Type} {ops : FloatOps num} {text : FloatText num}.

Lemma length_one {A : Type} (l : list A) :
  List.length l = 1%nat -> exists a, l = [a].
Proof. destruct l as [|a [|b l]]; try discriminate. intros _. now exists a. Qed.

Lemma loc_rows_found (keys : list string) (df : list (CIRow num)) :
  Forall (fun k => rows_named df k <> []) keys ->
  loc_rows keys df = Ok (flat_map (rows_named df) keys).
Proof.
  intros Hall. unfold loc_rows.
  rewrite (mapM_total _ (rows_named df) keys).
  - cbn [bind]. now rewrite flat_map_concat_map.
  - rewrite Forall_forall in Hall. intros k Hk. specialize (Hall k Hk).
    now destruct (rows_named df k).
Qed.

Lemma loc_rows_missing (keys : list string) (df : list (CIRow num)) (k : string) :
  In k keys -> rows_named df k = [] ->
  exists k', loc_rows keys df = Raise (KeyError k').
Proof.
  unfold loc_rows. induction keys as [|a keys IH]; simpl; [contradiction|].
  intros [->|Hin] Hk.
  - rewrite Hk. simpl. now eexists.
  - destruct (rows_named df a) eqn:Ea; simpl; [now eexists|].
    destruct (IH Hin Hk) as [k' Hk'].
    destruct (mapM _ keys); simpl in *; [discriminate|].
    injection Hk' as ->. now eexists.
Qed.

Lemma flat_map_length_ge {A B : Type} (f : A -> list B) (l : list A) :
  Forall (fun a => f a <> []) l ->
  (List.length l <= List.length (flat_map f l))%nat.
Proof.
  induction 1 as [|a l Ha Hl IH]; simpl; [lia|].
  rewrite length_app. destruct (f a); [congruence | simpl; lia].
Qed.

Lemma flat_map_length_eq {A B : Type} (f : A -> list B) (l : list A) :
  Forall (fun a => f a <> []) l ->
  (List.length (flat_map f l) =? List.length l)%nat
  = forallb (fun a => (List.length (f a) =? 1)%nat) l.
Proof.
  induction 1 as [|a l Ha Hl IH]; [reflexivity|].
  cbn [flat_map forallb List.length]. rewrite length_app.
  pose proof (flat_map_length_ge f l Hl) as Hge.
  destruct (f a) as [|b [|b' t]]; [congruence| |].
  - exact IH.
  - transitivity false; [|reflexivity].
    apply Nat.eqb_neq. cbn [List.length]. lia.
Qed.

(** [translate_to_ci] returns exactly when each of the seven regressors
    of its mapping names one row of the frame and no more.  What it
    returns is the row under [name] whose columns are the headings of the
    mapping, in the order of the mapping, each with the interval string of
    the row of its regressor.  A regressor that names no row raises
    [KeyError]. *)
Theorem translate_to_ci_once :
  forall (model : FittedModel num) (name : string),
    let df := get_ci_df model 2 in
    is_ok (translate_to_ci model name)
    = forallb (fun k => (List.length (rows_named df k) =? 1)%nat)
              (map fst ci_mapping)
    /\ (forall n cols,
           translate_to_ci model name = Ok (n, cols) ->
           n = name
           /\ Forall2 (fun km col =>
                         fst col = snd km
                         /\ exists r, rows_named df (fst km) = [r]
                                      /\ snd col = pcnt r) ci_mapping cols)
    /\ (forall k, In k (map fst ci_mapping) -> rows_named df k = [] ->
                  exists k', translate_to_ci model name = Raise (KeyError k')).
Proof.
  intros model name df.
  assert (Hok : is_ok (translate_to_ci model name)
                = forallb (fun k => (List.length (rows_named df k) =? 1)%nat)
                          (map fst ci_mapping)).
  { unfold translate_to_ci. fold df.
    destruct (forallb (fun k => negb (Nat.eqb (List.length (rows_named df k)) 0))
                      (map fst ci_mapping)) eqn:Hall.
    - assert (Hne : Forall (fun k => rows_named df k <> []) (map fst ci_mapping)).
      { apply Forall_forall. intros k Hk.
        rewrite forallb_forall in Hall. specialize (Hall k Hk).
        destruct (rows_named df k); [discriminate | congruence]. }
      rewrite (loc_rows_found _ df Hne). cbn [bind].
      rewrite <- (flat_map_length_eq (rows_named df) _ Hne).
      replace (List.length ci_mapping) with (List.length (map fst ci_mapping))
        by apply length_map.
      now destruct (Nat.eqb _ _).
    - assert (Hex : exists k, In k (map fst ci_mapping) /\ rows_named df k = []).
      { destruct (forallb_forall
                    (fun k => negb (Nat.eqb (List.length (rows_named df k)) 0))
                    (map fst ci_mapping)) as [_ Hback].
        destruct (existsb (fun k => Nat.eqb (List.length (rows_named df k)) 0)
                          (map fst ci_mapping)) eqn:Ex.
        - apply existsb_exists in Ex. destruct Ex as [k [Hk Hz]].
          exists k. split; [exact Hk|].
          destruct (rows_named df k); [reflexivity | discriminate].
        - rewrite Hback in Hall; [discriminate|].
          intros k Hk. destruct (Nat.eqb _ 0) eqn:Ez; [|reflexivity].
          assert (existsb (fun k => Nat.eqb (List.length (rows_named df k)) 0)
                          (map fst ci_mapping) = true)
            by (apply existsb_exists; now exists k).
          congruence. }
      destruct Hex as [k [Hk Hnil]].
      destruct (loc_rows_missing _ df k Hk Hnil) as [k' ->]. cbn [bind is_ok].
      symmetry. apply not_true_is_false. intros Hf.
      rewrite forallb_forall in Hf. specialize (Hf k Hk).
      rewrite Hnil in Hf. discriminate. }
  split; [exact Hok|]. split.
  - intros n cols Hret. rewrite Hret in Hok. cbn [is_ok] in Hok.
    symmetry in Hok. rewrite forallb_forall in Hok.
    assert (Hone : forall k, In k (map fst ci_mapping) ->
                             exists r, rows_named df k = [r]).
    { intros k Hk. apply length_one. apply Nat.eqb_eq. now apply Hok. }
    unfold ci_mapping in Hone. cbn [map fst] in Hone.
    destruct (Hone "time"%string ltac:(simpl; tauto)) as [r1 H1].
    destruct (Hone "mar20"%string ltac:(simpl; tauto)) as [r2 H2].
    destruct (Hone "april20"%string ltac:(simpl; tauto)) as [r3 H3].
    destruct (Hone "slope"%string ltac:(simpl; tauto)) as [r4 H4].
    destruct (Hone "step"%string ltac:(simpl; tauto)) as [r5 H5].
    destruct (Hone "slope2"%string ltac:(simpl; tauto)) as [r6 H6].
    destruct (Hone "step2"%string ltac:(simpl; tauto)) as [r7 H7].
    unfold translate_to_ci, loc_rows, ci_mapping in Hret. fold df in Hret.
    cbn [map fst mapM] in Hret.
    rewrite H1, H2, H3, H4, H5, H6, H7 in Hret. cbn in Hret.
    injection Hret as <- <-. split; [reflexivity|].
    unfold ci_mapping.
    repeat (apply Forall2_cons;
            [split; [reflexivity | eexists; split; [eassumption | reflexivity]]|]).
    apply Forall2_nil.
  - intros k Hk Hnil. unfold translate_to_ci. fold df.
    destruct (loc_rows_missing _ df k Hk Hnil) as [k' ->]. cbn [bind].
    now eexists.
Qed.

End TranslateToCi.

(** ** The whole of [get_model] *)

Section GetModel.

Variable to_number : string -> option Q.
Variable str_of_num : Q -> string.
Variable fnmatch : string -> string -> bool.
Context {H num : Type}.
Variable fourier_in_sample : nat -> H * H.
Variable poisson_fit :
  string -> list (ModelRow H) -> option (list cell) -> cov_type -> Z ->
  result (FittedModel num).

Lemma get_regression_Ok (df : list (ModelRow H)) (categories : option (list cell))
  (lags : Z) (formula : string) (interaction_group : option string)
  (out : list string) (model : FittedModel num) :
  get_regression poisson_fit df categories lags formula interaction_group
  = (out, Ok model) ->
  converged model = true /\ out = [summary model].
Proof.
  unfold get_regression.
  destruct (match interaction_group with
            | Some _ => _
            | None => _
            end) as [m|e]; [|discriminate].
  destruct (converged m) eqn:E; cbn [negb]; [|discriminate].
  intros Heq. injection Heq as <- <-. now split.
Qed.

(** What the relabelling does to a row: nothing, or a string in the
    grouping column. *)
Lemma relabel_flag_rows {V : Type} (g : string) (lab : label)
  (numeric out : list (MeasureRow V)) :
  label_of_name g = Ok lab ->
  relabel_flag str_of_num g numeric = Ok out ->
  Forall2 (fun r r' => r' = r \/ exists s, r' = set_label lab (CStr s) r)
          numeric out.
Proof.
  intros Hlab. unfold relabel_flag. rewrite Hlab. cbn [bind].
  destruct (is_bool_as_int _).
  - revert out. induction numeric as [|x numeric IH]; simpl; intros out Hout.
    + injection Hout as <-. constructor.
    + destruct (label_of_name (PyStr.replace "group" "category" g)) as [c|e];
        simpl in Hout; [|discriminate].
      destruct (mapM _ numeric) as [rest|e] eqn:Hm; simpl in Hout;
        [|discriminate].
      injection Hout as <-. constructor; [right; now eexists|].
      now apply IH.
  - intros Hout. injection Hout as <-.
    induction numeric; constructor; auto.
Qed.

Lemma combine_fourier_its (itsdf : list ItsRow) :
  map (@its H)
      (map (fun rf => {| its := fst rf; s1 := fst (snd rf); c1 := snd (snd rf) |})
           (combine itsdf (get_fourier fourier_in_sample itsdf)))
  = itsdf.
Proof.
  rewrite map_map. cbn [its].
  rewrite (map_combine_fst (fun x => x) itsdf).
  - apply map_id.
  - unfold get_fourier. now rewrite length_map, length_seq.
Qed.

Lemma filter_all_true {A : Type} (l : list A) : filter (fun _ => true) l = l.
Proof. induction l as [|a l IH]; simpl; [reflexivity | now rewrite IH]. Qed.

Lemma get_model_Ok (measure_table : list (MeasureRow cell)) (pattern : string)
  (interaction_group : option string) (reference : option cell)
  (out : list string) (model : FittedModel num) (df : list (ModelRow H)) :
  get_model to_number str_of_num fnmatch fourier_in_sample poisson_fit
    measure_table pattern interaction_group reference false
  = (out, Ok (model, df)) ->
  exists numeric formula categories,
    match interaction_group with
    | Some g => relabel_flag str_of_num g
                  (prepared_rows to_number fnmatch interaction_group
                     measure_table pattern)
                = Ok numeric
                /\ exists l, label_of_name g = Ok l
    | None => numeric = prepared_rows to_number fnmatch interaction_group
                          measure_table pattern
    end
    /\ get_its_variables numeric STEP_TIME_1 STEP_TIME_2 = Ok (map (@its H) df)
    /\ get_formula (map (@its H) df) (Some fourier_columns) interaction_group
         reference = Ok (formula, categories)
    /\ get_regression poisson_fit df categories 2 formula interaction_group
       = (out, Ok model).
Proof.
  unfold get_model, prepared_rows. rewrite subset_table_filter.
  destruct (existsb _ measure_table); cbn [bind]; [|discriminate].
  set (subset := filter (fun r => fnmatch (name r) pattern) measure_table).
  destruct interaction_group as [g|].
  - destruct (label_of_name g) as [l|e] eqn:Hl; cbn [bind]; [|discriminate].
    set (base := filter _ (coerce_numeric to_number _)).
    destruct (relabel_flag str_of_num g base) as [numeric|e] eqn:Hr;
      cbn [bind]; [|discriminate].
    destruct (get_its_variables numeric STEP_TIME_1 STEP_TIME_2)
      as [itsdf|e] eqn:Hi; cbn [bind]; [|discriminate].
    destruct (get_formula itsdf (Some fourier_columns) (Some g) reference)
      as [[formula categories]|e] eqn:Hf; cbn [bind]; [|discriminate].
    destruct (get_regression _ _ _ _ _ _) as [o fit] eqn:Hg.
    cbv iota beta. intros Heq.
    apply pair_equal_spec in Heq. destruct Heq as [<- Hfit].
    destruct fit as [m|e]; cbn [bind] in Hfit; [|discriminate].
    injection Hfit as Hm Hdf. subst m df.
    exists numeric, formula, categories.
    rewrite combine_fourier_its.
    repeat split; try assumption. now exists l.
  - rewrite (filter_all_true subset). cbn [bind].
    set (base := filter _ (coerce_numeric to_number _)).
    destruct (get_its_variables base STEP_TIME_1 STEP_TIME_2)
      as [itsdf|e] eqn:Hi; cbn [bind]; [|discriminate].
    destruct (get_formula itsdf (Some fourier_columns) None reference)
      as [[formula categories]|e] eqn:Hf; cbn [bind]; [|discriminate].
    destruct (get_regression _ _ _ _ _ _) as [o fit] eqn:Hg.
    cbv iota beta. intros Heq.
    apply pair_equal_spec in Heq. destruct Heq as [<- Hfit].
    destruct fit as [m|e]; cbn [bind] in Hfit; [|discriminate].
    injection Hfit as Hm Hdf. subst m df.
    exists base, formula, categories.
    rewrite combine_fourier_its.
    repeat split; assumption.
Qed.

End GetModel.

Section GetModelFacts.

Variable to_number : string -> option Q.
Variable str_of_num : Q -> string.
Variable fnmatch : string -> string -> bool.
Context {H num : Type}.
Variable fourier_in_sample : nat -> H * H.
Variable poisson_fit :
  string -> list (ModelRow H) -> option (list cell) -> cov_type -> Z ->
  result (FittedModel num).

(** Where a prepared row comes from. *)
Lemma prepared_rows_In (interaction_group : option string)
  (measure_table : list (MeasureRow cell)) (pattern : string)
  (r : MeasureRow (option Q)) :
  In r (prepared_rows to_number fnmatch interaction_group measure_table pattern) ->
  ts_eqb (date r) november_2022 = false
  /\ exists raw,
      In raw measure_table
      /\ fnmatch (name raw) pattern = true
      /\ date r = date raw /\ name r = name raw
      /\ value r = to_numeric to_number (value raw)
      /\ (forall l, get_label l r = get_label l raw)
      /\ (forall g l, interaction_group = Some g -> label_of_name g = Ok l ->
                      isnull (get_label l raw) = false).
Proof.
  unfold prepared_rows. intros Hin.
  apply filter_In in Hin. destruct Hin as [Hin Hnov].
  apply negb_true_iff in Hnov. split; [exact Hnov|].
  unfold coerce_numeric in Hin. apply in_map_iff in Hin.
  destruct Hin as [raw [<- Hraw]].
  apply filter_In in Hraw. destruct Hraw as [Hraw Hgroup].
  apply filter_In in Hraw. destruct Hraw as [Hraw Hmatch].
  exists raw. repeat split; try assumption; try reflexivity;
    try (intros l; now destruct l).
  intros g l -> Hl. rewrite Hl in Hgroup. now apply negb_true_iff in Hgroup.
Qed.

(** A frame that [get_model] returns, without flattening, comes with a
    model that has converged and whose summary was printed.  Its rows are
    rows of the table whose name matches the pattern, none of them of
    November 2022 and, with an interaction group, none without a group;
    their values are the coerced values of the table, and their regressors
    are those of [get_its_variables] on these very rows with the two
    cutoffs of the module. *)
Theorem get_model_returns :
  forall (measure_table : list (MeasureRow cell)) (pattern : string)
         (interaction_group : option string) (reference : option cell)
         (out : list string) (model : FittedModel num) (df : list (ModelRow H)),
    get_model to_number str_of_num fnmatch fourier_in_sample poisson_fit
      measure_table pattern interaction_group reference false
    = (out, Ok (model, df)) ->
    converged model = true
    /\ out = [summary model]
    /\ get_its_variables (map (fun x => obs (its x)) df) STEP_TIME_1 STEP_TIME_2
       = Ok (map (@its H) df)
    /\ Forall (fun x =>
                 let r := obs (its x) in
                 ts_eqb (date r) november_2022 = false
                 /\ fnmatch (name r) pattern = true
                 /\ (exists raw, In raw measure_table
                                 /\ date raw = date r /\ name raw = name r
                                 /\ value r = to_numeric to_number (value raw))
                 /\ (forall g l, interaction_group = Some g ->
                                 label_of_name g = Ok l ->
                                 isnull (get_label l r) = false)) df.
Proof.
  intros t pattern g reference out model df Hret.
  destruct (get_model_Ok _ _ _ _ _ _ _ _ _ _ _ _ Hret)
    as [numeric [formula [categories [Hnum [Hits [_ Hreg]]]]]].
  destruct (get_regression_Ok _ _ _ _ _ _ _ _ Hreg) as [Hconv Hout].
  split; [exact Hconv|]. split; [exact Hout|].
  destruct (get_its_variables_Ok _ _ _ _ Hits) as [my [_ [_ [_ Hmap]]]].
  assert (Hobs : map (fun x => obs (its x)) df = numeric).
  { rewrite <- (map_map (@its H) obs), Hmap, map_map. apply map_id. }
  split; [now rewrite Hobs|].
  assert (Hrows : Forall (fun r' =>
            exists r,
              In r (prepared_rows to_number fnmatch g t pattern)
              /\ date r' = date r /\ name r' = name r /\ value r' = value r
              /\ (forall gn l, g = Some gn -> label_of_name gn = Ok l ->
                               isnull (get_label l r) = false ->
                               isnull (get_label l r') = false)) numeric).
  { destruct g as [gn|].
    - destruct Hnum as [Hrel [l Hl]].
      pose proof (relabel_flag_rows str_of_num gn l _ _ Hl Hrel) as Hf2.
      clear Hrel Hobs Hits Hmap.
      induction Hf2 as [|r r' base numeric Hr Hf2 IH]; constructor.
      + exists r. split; [now left|].
        destruct Hr as [->|[s ->]].
        * repeat split; auto.
        * repeat split. intros gn' l' Hgn Hl' _.
          injection Hgn as <-. rewrite Hl in Hl'. injection Hl' as <-.
          now destruct l.
      + eapply Forall_impl; [|exact IH].
        intros a [r0 [Hin Hrest]]. exists r0. split; [now right | exact Hrest].
    - subst numeric. apply Forall_forall. intros r Hr. exists r.
      repeat split; auto. }
  rewrite <- Hobs in Hrows. rewrite Forall_map in Hrows.
  eapply Forall_impl; [|exact Hrows].
  intros x [r [Hin [Hd [Hn [Hv Hg]]]]]. cbv zeta.
  destruct (prepared_rows_In g t pattern r Hin)
    as [Hnov [raw [Hraw [Hmatch [Hdate [Hname [Hval [_ Hnull]]]]]]]].
  rewrite Hd, Hn, Hv. split; [exact Hnov|]. split; [now rewrite Hname|].
  split.
  - exists raw. repeat split; auto.
  - intros gn l Hgn Hl. apply (Hg gn l Hgn Hl).
    destruct (prepared_rows_In g t pattern r Hin)
      as [_ [raw' [_ [_ [_ [_ [_ [Hlab Hnull']]]]]]]].
    rewrite Hlab. now apply (Hnull' gn l).
Qed.

(** When no name of the table matches the pattern, [get_model] raises
    the [ValueError] of [subset_table], which names the pattern; nothing is
    printed and nothing is fitted. *)
Theorem get_model_no_match :
  forall (measure_table : list (MeasureRow cell)) (pattern : string)
         (interaction_group : option string) (reference : option cell)
         (convert_flat : bool),
    existsb (fun r => fnmatch (name r) pattern) measure_table = false ->
    get_model to_number str_of_num fnmatch fourier_in_sample poisson_fit
      measure_table pattern interaction_group reference convert_flat
    = ([], Raise (ValueError
                    ("Pattern did not match any files: " ++ pattern)%string)).
Proof.
  intros t pattern g reference flat Hno.
  unfold get_model. rewrite subset_table_filter, Hno. reflexivity.
Qed.

End GetModelFacts.

Lemma get_model_returns_witness :
  get_model integer_to_number (fun _ => EmptyString) exact_match no_harmonics
    (constant_fit (one_coef_model "time" 0 0 0 true))
    raw_example "any_all" None None false
  = (["Poisson Regression Results"%string],
     Ok (one_coef_model "time" 0 0 0 true, raw_example_frame))
  /\ converged (one_coef_model "time" 0 0 0 true) = true
  /\ Forall (fun x => ts_eqb (date (obs (its x))) november_2022 = false
                      /\ exact_match (name (obs (its x))) "any_all" = true)
            raw_example_frame.
Proof.
  assert (Hrun :
    get_model integer_to_number (fun _ => EmptyString) exact_match no_harmonics
      (constant_fit (one_coef_model "time" 0 0 0 true))
      raw_example "any_all" None None false
    = (["Poisson Regression Results"%string],
       Ok (one_coef_model "time" 0 0 0 true, raw_example_frame)))
    by reflexivity.
  split; [exact Hrun|].
  destruct (get_model_returns integer_to_number (fun _ => EmptyString)
              exact_match no_harmonics
              (constant_fit (one_coef_model "time" 0 0 0 true))
              raw_example "any_all" None None _ _ _ Hrun)
    as [Hconv [_ [_ Hrows]]].
  split; [exact Hconv|].
  eapply Forall_impl; [|exact Hrows].
  intros x [Hnov [Hmatch _]]. split; assumption.
Defined.

Lemma get_model_no_match_witness :
  existsb (fun r => exact_match (name r) "nonexistent") raw_example = false
  /\ get_model integer_to_number (fun _ => EmptyString) exact_match no_harmonics
       (constant_fit (one_coef_model "time" 0 0 0 true))
       raw_example "nonexistent" None None false
     = ([], Raise (ValueError "Pattern did not match any files: nonexistent")).
Proof.
  split; [reflexivity|].
  exact (get_model_no_match integer_to_number (fun _ => EmptyString) exact_match
           no_harmonics (constant_fit (one_coef_model "time" 0 0 0 true))
           raw_example "nonexistent" None None false eq_refl).
Defined.

(** ** What the index of the forest frame is made of *)

Section ForestIndexShape.
Import PyStr PyStrFacts.

Local Open Scope string_scope.

Lemma split_pieces_no_sep (c : ascii) (s : string) :
  Forall (fun p => contains_char c p = false) (split c s).
Proof.
  induction s as [|a s IH]; simpl.
  - repeat constructor.
  - destruct (Ascii.eqb a c) eqn:E.
    + constructor; [reflexivity | exact IH].
    + destruct (split c s) as [|h t]; inversion IH; subst;
        constructor; simpl; try rewrite E; auto.
Qed.

Lemma split_pieces_without (c d : ascii) (s : string) :
  contains_char d s = false ->
  Forall (fun p => contains_char d p = false) (split c s).
Proof.
  induction s as [|a s IH]; simpl.
  - intros _. repeat constructor.
  - intros Hd. apply orb_false_iff in Hd. destruct Hd as [Ha Hs].
    specialize (IH Hs).
    destruct (Ascii.eqb a c).
    + constructor; [reflexivity | exact IH].
    + destruct (split c s) as [|h t]; inversion IH; subst;
        constructor; simpl; try rewrite Ha; auto.
Qed.

Lemma rstrip_without (c d : ascii) (s : string) :
  contains_char d s = false -> contains_char d (rstrip c s) = false.
Proof.
  induction s as [|a s IH]; simpl; [reflexivity|].
  intros Hd. apply orb_false_iff in Hd. destruct Hd as [Ha Hs].
  specialize (IH Hs).
  destruct (rstrip c s) as [|b r].
  - destruct (Ascii.eqb a c); simpl; [reflexivity | now rewrite Ha].
  - simpl in *. now rewrite Ha, IH.
Qed.

Lemma append_nil_inv (t : string) (c : ascii) :
  EmptyString = t ++ String c EmptyString -> False.
Proof. destruct t; discriminate. Qed.

(** [rstrip] leaves no [c] at the end. *)
Lemma rstrip_no_trailing (c : ascii) (s t : string) :
  rstrip c s <> t ++ String c EmptyString.
Proof.
  revert t. induction s as [|a s IH]; intros t; simpl.
  - intros E. exact (append_nil_inv t c E).
  - destruct (rstrip c s) as [|b r] eqn:Er.
    + destruct (Ascii.eqb a c) eqn:Ea.
      * intros E. exact (append_nil_inv t c E).
      * destruct t as [|x t]; simpl; intros E.
        -- injection E as ->. now rewrite Ascii.eqb_refl in Ea.
        -- injection E as _ E. exact (append_nil_inv t c E).
    + destruct t as [|x t]; simpl; intros E.
      * discriminate.
      * injection E as _ E. exact (IH t E).
Qed.

Lemma split_key_shape (key x g : string) :
  split_key key = Ok (x, g) ->
  contains_char "." x = false /\ contains_char ":" x = false
  /\ contains_char "." g = false /\ forall t, g <> t ++ "]".
Proof.
  unfold split_key.
  pose proof (split_pieces_no_sep "." key) as Hp.
  destruct (split "." key) as [|x0 [|y [|z t]]]; try discriminate.
  inversion Hp as [|? ? Hx0 Hp']; subst. inversion Hp' as [|? ? Hy _]; subst.
  intros Heq. injection Heq as <- <-.
  split; [|split; [|split]].
  - destruct (contains_char ":" x0); [|reflexivity].
    pose proof (split_pieces_without ":" "." x0 Hx0) as Hw.
    destruct (split ":" x0); [reflexivity|]. simpl. now inversion Hw.
  - destruct (contains_char ":" x0); [|reflexivity].
    pose proof (split_pieces_no_sep ":" x0) as Hw.
    destruct (split ":" x0); [reflexivity|]. simpl. now inversion Hw.
  - now apply rstrip_without.
  - intros t0. apply rstrip_no_trailing.
Qed.

(** In the index of the frame that [pcnt_change] builds, no change holds
    a dot or a colon, and no group holds a dot or ends in a closing
    bracket: a level that ends in brackets is indexed without them, so the
    levels ["a"] and ["a]"] come under one group. *)
Theorem forest_rows_index_shape :
  forall (num : Type) (name : cell) (df : list (CIRow num))
         (es : list (ForestEntry num)),
    forest_rows name df = Ok es ->
    Forall (fun e => contains_char "." (change e) = false
                     /\ contains_char ":" (change e) = false
                     /\ contains_char "." (group e) = false
                     /\ forall t, group e <> t ++ "]") es.
Proof.
  intros num name df es Hes.
  destruct (forest_rows_Ok name df es Hes) as [Hix _].
  apply Forall_forall. intros e He.
  assert (Hin : In (Ok (change e, group e))
                   (map (fun r => split_key (ci_name r))
                        (filter (fun r => search_T_any (ci_name r)) df))).
  { rewrite <- Hix. apply (in_map (fun e => Ok (change e, group e)) es e He). }
  apply in_map_iff in Hin. destruct Hin as [r [Hs _]].
  exact (split_key_shape _ _ _ Hs).
Qed.

End ForestIndexShape.

Lemma forest_rows_index_shape_witness :
  forest_rows (CStr "sex")
    [{| ci_name := "step:group_0[T.a]]";
        ci_num := {| coef := 0; lci := 0; uci := 0; error := 0 |};
        pcnt := "" |}]
  = Ok [{| change := "step"; group := "a"; category := CStr "sex";
           fe_num := {| coef := 0; lci := 0; uci := 0; error := 0 |};
           fe_pcnt := "" |}]
  /\ Forall (fun e => PyStr.contains_char "." (change e) = false
                      /\ PyStr.contains_char ":" (change e) = false
                      /\ PyStr.contains_char "." (group e) = false
                      /\ forall t, group e <> (t ++ "]")%string)
       [{| change := "step"; group := "a"; category := CStr "sex";
           fe_num := {| coef := 0; lci := 0; uci := 0; error := 0 |};
           fe_pcnt := "" |}].
Proof.
  assert (Hrun :
    forest_rows (CStr "sex")
      [{| ci_name := "step:group_0[T.a]]";
          ci_num := {| coef := 0; lci := 0; uci := 0; error := 0 |};
          pcnt := "" |}]
    = Ok [{| change := "step"; group := "a"; category := CStr "sex";
             fe_num := {| coef := 0; lci := 0; uci := 0; error := 0 |};
             fe_pcnt := "" |}]) by reflexivity.
  split; [exact Hrun|].
  exact (forest_rows_index_shape Z (CStr "sex") _ _ Hrun).
Defined.

(** ** The whole of [pcnt_change] *)

Section PcntChange.

Variable to_number : string -> option Q.
Variable str_of_num : Q -> string.
Variable fnmatch : string -> string -> bool.
Context {H num : Type} {ops : FloatOps num} {text : FloatText num}.
Variable fourier_in_sample : nat -> H * H.
Variable poisson_fit :
  string -> list (ModelRow H) -> option (list cell) -> cov_type -> Z ->
  result (FittedModel num).

Lemma filter_map_length {A B : Type} (p : B -> bool) (f : A -> B) (l : list A) :
  List.length (filter p (map f l)) = List.length (filter (fun a => p (f a)) l).
Proof.
  induction l as [|a l IH]; simpl; [reflexivity|].
  destruct (p (f a)); simpl; now rewrite IH.
Qed.

Lemma unique_head (l : list cell) (n : cell) (t : list cell) :
  unique l = n :: t -> exists rest, l = n :: rest.
Proof.
  destruct l as [|c l]; simpl; [discriminate|].
  intros E. injection E as <- _. now exists l.
Qed.

(** [pcnt_change] returns only what a returned, converged model gives: it
    prints what [get_model] prints, it has one entry for each coefficient
    whose name holds a ['T'] followed by a character, with the interval
    string of that coefficient, and every entry carries what the first row
    of the frame has in the category column: [category_0] without an
    interaction group, the category column of the number of the group with
    one.  An error of [get_model] goes through as it is. *)
Theorem pcnt_change_returns :
  forall (measure_table : list (MeasureRow cell)) (pattern : string)
         (interaction_group : option string) (reference : option cell)
         (out : list string),
    (forall es,
        pcnt_change to_number str_of_num fnmatch fourier_in_sample poisson_fit
          measure_table pattern interaction_group reference false
        = (out, Ok es) ->
        exists model x rest c,
          get_model to_number str_of_num fnmatch fourier_in_sample poisson_fit
            measure_table pattern interaction_group reference false
          = (out, Ok (model, x :: rest))
          /\ converged model = true
          /\ label_of_name
               (match interaction_group with
                | Some g => ("category_" ++ last (PyStr.split "_" g) EmptyString)%string
                | None => "category_0"%string
                end) = Ok c
          /\ Forall (fun e => category e = get_label c (obs (its x))) es
          /\ List.length es
             = List.length (filter (fun k => PyStr.search_T_any (c_name k))
                                   (coefficients model))
          /\ map (@fe_pcnt num) es
             = map (@pcnt num)
                 (filter (fun r => PyStr.search_T_any (ci_name r))
                         (get_ci_df model 2)))
    /\ (forall e,
           get_model to_number str_of_num fnmatch fourier_in_sample poisson_fit
             measure_table pattern interaction_group reference false
           = (out, Raise e) ->
           pcnt_change to_number str_of_num fnmatch fourier_in_sample
             poisson_fit measure_table pattern interaction_group reference false
           = (out, Raise e)).
Proof.
  intros t pattern g reference out. split.
  - intros es. unfold pcnt_change.
    destruct (get_model _ _ _ _ _ _ _ _ _ _) as [o fitted] eqn:Hgm.
    intros Heq. apply pair_equal_spec in Heq. destruct Heq as [-> Hres].
    destruct fitted as [[model df]|e]; cbn [bind fst snd] in Hres; [|discriminate].
    unfold column in Hres.
    destruct (label_of_name _) as [c|e] eqn:Hc; cbn [bind] in Hres;
      [|discriminate].
    destruct (unique _) as [|n u] eqn:Hu; cbn [bind] in Hres; [discriminate|].
    destruct (unique_head _ _ _ Hu) as [rest Hcol].
    destruct df as [|x df]; [discriminate|].
    cbn [map] in Hcol. injection Hcol as Hn _.
    destruct (get_model_Ok _ _ _ _ _ _ _ _ _ _ _ _ Hgm)
      as [numeric [formula [categories [_ [_ [_ Hreg]]]]]].
    destruct (get_regression_Ok _ _ _ _ _ _ _ _ Hreg) as [Hconv _].
    destruct (forest_rows_Ok n _ es Hres) as [_ [Hnum [Hpcnt Hcat]]].
    exists model, x, df, c. split; [reflexivity|]. split; [exact Hconv|].
    split; [reflexivity|].
    split; [now rewrite Hn|]. split; [|exact Hpcnt].
    rewrite <- (length_map (@fe_num num) es), Hnum, length_map.
    rewrite <- (filter_map_length PyStr.search_T_any (@c_name num)).
    rewrite <- (get_ci_df_names model 2).
    now rewrite filter_map_length.
  - intros e Hgm. unfold pcnt_change. now rewrite Hgm.
Qed.

End PcntChange.

Lemma pcnt_change_returns_witness :
  pcnt_change integer_to_number (fun _ => EmptyString) exact_match no_harmonics
    (ops := {| fsub := Z.sub; fmul := Z.mul; fexp := fun x => x + 1;
               fconst := fun z => z |})
    (text := {| fround := fun x _ => x; fstr := fun _ => EmptyString |})
    (constant_fit (one_coef_model "step:group_0[T.F]" 0 0 0 true))
    sex_raw "any_sex" (Some "group_0"%string) (Some (CStr "M")) false
  = (["Poisson Regression Results"%string],
     Ok [{| change := "step"; group := "F"; category := CStr "sex";
            fe_num := {| coef := 0; lci := 0; uci := 0; error := 0 |};
            fe_pcnt := "% (% to %)" |}])
  /\ exists (c : label) (x : ModelRow unit),
      label_of_name "category_0" = Ok c
      /\ get_label c (obs (its x)) = CStr "sex"
      /\ Forall (fun e : ForestEntry Z => category e = get_label c (obs (its x)))
           [{| change := "step"; group := "F"; category := CStr "sex";
               fe_num := {| coef := 0; lci := 0; uci := 0; error := 0 |};
               fe_pcnt := "% (% to %)" |}].
Proof.
  assert (Hrun :
    pcnt_change integer_to_number (fun _ => EmptyString) exact_match no_harmonics
      (ops := {| fsub := Z.sub; fmul := Z.mul; fexp := fun x => x + 1;
                 fconst := fun z => z |})
      (text := {| fround := fun x _ => x; fstr := fun _ => EmptyString |})
      (constant_fit (one_coef_model "step:group_0[T.F]" 0 0 0 true))
      sex_raw "any_sex" (Some "group_0"%string) (Some (CStr "M")) false
    = (["Poisson Regression Results"%string],
       Ok [{| change := "step"; group := "F"; category := CStr "sex";
              fe_num := {| coef := 0; lci := 0; uci := 0; error := 0 |};
              fe_pcnt := "% (% to %)" |}])) by reflexivity.
  split; [exact Hrun|].
  destruct (proj1 (pcnt_change_returns integer_to_number (fun _ => EmptyString)
                     exact_match no_harmonics
                     (constant_fit (one_coef_model "step:group_0[T.F]" 0 0 0 true))
                     sex_raw "any_sex" (Some "group_0"%string) (Some (CStr "M"))
                     ["Poisson Regression Results"%string]) _ Hrun)
    as [model [x [rest [c [_ [_ [Hc [Hcat _]]]]]]]].
  exists c, x. split; [exact Hc|]. split; [|exact Hcat].
  inversion Hcat as [|e es He _]; subst. now symmetry.
Defined.
